(** * Voicify VSCode plugin: window inspection and clipboard text injection

    A shallow embedding of [main.go]: the focused-window query
    ([Window.GetFocusedWindow]), the clipboard transport
    ([Clipboard.CopyToClipboard], [Clipboard.PasteWithReturn]), the session
    classification ([isX11]) and the plugin action ([Action.Execute]).

    Go strings are byte strings ([string]); a Go [error] value is
    [option error] ([None] is [nil]); a panic is an outcome of its own.
    Every call that leaves the process (a subprocess, a key tap, a sleep, a
    log line) is recorded as an [Event]; what the operating system answers is
    read from a [World], which may look at everything that happened before. *)

From Stdlib Require Import String Ascii List Bool NArith ZArith Lia.
Import ListNotations.
Open Scope string_scope.

Set Warnings "-register-all".

(** ** The parts of Go's [strings] package the plugin calls *)

Module GoStrings.

(** [strings.Contains(s, substr)]: does [substr] occur in [s]? *)
Fixpoint Contains (s substr : string) : bool :=
  if prefix substr s then true
  else match s with
       | EmptyString => false
       | String _ rest => Contains rest substr
       end.

Definition byteval (c : ascii) : N := N_of_ascii c.

(** [c < utf8.RuneSelf] *)
Definition isASCIIbyte (c : ascii) : bool := (byteval c <? 128)%N.

Definition isUpperByte (c : ascii) : bool :=
  ((65 <=? byteval c) && (byteval c <=? 90))%N.

(** [c += 'a' - 'A'] for an upper-case ASCII letter. *)
Definition lowerByte (c : ascii) : ascii :=
  if isUpperByte c then ascii_of_N (byteval c + 32) else c.

Fixpoint isASCII (s : string) : bool :=
  match s with
  | EmptyString => true
  | String c rest => isASCIIbyte c && isASCII rest
  end.

Fixpoint hasUpper (s : string) : bool :=
  match s with
  | EmptyString => false
  | String c rest => isUpperByte c || hasUpper rest
  end.

Fixpoint mapBytes (f : ascii -> ascii) (s : string) : string :=
  match s with
  | EmptyString => EmptyString
  | String c rest => String (f c) (mapBytes f rest)
  end.

Section ToLower.

(** [strings.Map(unicode.ToLower, s)], the path [strings.ToLower] takes
    for a string with a byte outside ASCII. It needs the Unicode case
    tables, which are no part of the plugin: a parameter. *)
Variable mapUnicodeToLower : string -> string.

(** [strings.ToLower(s)]: ASCII strings are lowered byte by byte (and
    returned as they are when they hold no upper-case letter). *)
Definition ToLower (s : string) : string :=
  if isASCII s then
    if hasUpper s then mapBytes lowerByte s else s
  else mapUnicodeToLower s.

End ToLower.

(** White space as [unicode.IsSpace] has it, by UTF-8 encoding:
    one byte: TAB LF VT FF CR SPACE;
    two bytes: U+0085, U+00A0;
    three bytes: U+1680, U+2000..U+200A, U+2028, U+2029, U+202F, U+205F,
    U+3000. *)
Definition isSpace1 (a : N) : bool :=
  (((9 <=? a) && (a <=? 13)) || (a =? 32))%N.

Definition isSpace2 (a b : N) : bool :=
  ((a =? 194) && ((b =? 133) || (b =? 160)))%N.

Definition isSpace3 (a b c : N) : bool :=
  (((a =? 225) && (b =? 154) && (c =? 128))
   || ((a =? 226) && (b =? 128)
       && (((128 <=? c) && (c <=? 138)) || (c =? 168) || (c =? 169) || (c =? 175)))
   || ((a =? 226) && (b =? 129) && (c =? 159))
   || ((a =? 227) && (b =? 128) && (c =? 128)))%N.

(** Width in bytes of the white-space rune [s] starts with, [0] if it
    starts with none. *)
Definition leadingSpace (s : string) : nat :=
  match s with
  | String c0 (String c1 (String c2 _)) =>
      if isSpace1 (byteval c0) then 1
      else if isSpace2 (byteval c0) (byteval c1) then 2
      else if isSpace3 (byteval c0) (byteval c1) (byteval c2) then 3
      else 0
  | String c0 (String c1 EmptyString) =>
      if isSpace1 (byteval c0) then 1
      else if isSpace2 (byteval c0) (byteval c1) then 2
      else 0
  | String c0 EmptyString => if isSpace1 (byteval c0) then 1 else 0
  | EmptyString => 0
  end.

(** The same for the rune [s] ends with, on the reversed bytes. *)
Definition trailingSpace (r : list ascii) : nat :=
  match r with
  | c0 :: c1 :: c2 :: _ =>
      if isSpace1 (byteval c0) then 1
      else if isSpace2 (byteval c1) (byteval c0) then 2
      else if isSpace3 (byteval c2) (byteval c1) (byteval c0) then 3
      else 0
  | [c0; c1] =>
      if isSpace1 (byteval c0) then 1
      else if isSpace2 (byteval c1) (byteval c0) then 2
      else 0
  | [c0] => if isSpace1 (byteval c0) then 1 else 0
  | [] => 0
  end.

Fixpoint dropBytes (n : nat) (s : string) : string :=
  match n, s with
  | S m, String _ rest => dropBytes m rest
  | _, _ => s
  end.

Fixpoint trimLeft (fuel : nat) (s : string) : string :=
  match fuel with
  | O => s
  | S f =>
      match leadingSpace s with
      | O => s
      | w => trimLeft f (dropBytes w s)
      end
  end.

Fixpoint trimRightRev (fuel : nat) (r : list ascii) : list ascii :=
  match fuel with
  | O => r
  | S f =>
      match trailingSpace r with
      | O => r
      | w => trimRightRev f (skipn w r)
      end
  end.

(** [strings.TrimSpace(s)]: leading and trailing white space removed. *)
Definition TrimSpace (s : string) : string :=
  let l := trimLeft (String.length s) s in
  string_of_list_ascii
    (rev (trimRightRev (String.length l) (rev (list_ascii_of_string l)))).

End GoStrings.
Import GoStrings.

(** ** Errors, commands, events *)

(** A Go [error] value: one that came back from the operating system
    ([os/exec], [io]), or one that [fmt.Errorf] built from a message. *)
Inductive error : Type :=
| OSError (msg : string)
| errorString (msg : string).

(** [err.Error()] *)
Definition Error (e : error) : string :=
  match e with
  | OSError msg => msg
  | errorString msg => msg
  end.

(** [fmt.Errorf] with a literal message, and with one [%v] verb at the end
    of the format, filled with an error: the cause's text is copied into the
    message. *)
Definition fmt_Errorf (msg : string) : error := errorString msg.
Definition fmt_Errorf_v (fmt : string) (cause : error) : error :=
  errorString (fmt ++ Error cause).

(** What an [exec.Cmd] reads on its standard input: nothing was set
    ([Stdin == nil], the null device), or the read end of an [io.Pipe]. *)
Inductive StdinSource : Type :=
| StdinNil
| StdinPipeReader.

(** [exec.Cmd], the fields the plugin sets. *)
Record Cmd : Type := mkCmd {
  Path : string;
  Args : list string;
  Stdin : StdinSource
}.

(** [exec.Command(name, arg...)] *)
Definition exec_Command (name : string) (arg : list string) : Cmd :=
  mkCmd name (name :: arg) StdinNil.

Definition with_Stdin (c : Cmd) (r : StdinSource) : Cmd :=
  mkCmd (Path c) (Args c) r.

Inductive Event : Type :=
| EvOutput (c : Cmd)                      (* cmd.Output() *)
| EvRun (c : Cmd)                         (* cmd.Run() *)
| EvLookPath (file : string)              (* exec.LookPath(file) *)
| EvPipeWrite (data : string)             (* pipeWriter.Write(data) *)
| EvPipeClose                             (* pipeWriter.Close() *)
| EvGo (body : list Event)                (* go func() { body }() *)
| EvKeyTap (key : string) (args : list string)  (* robotgo.KeyTap(key, args...) *)
| EvSleep (d : Z)                         (* time.Sleep(d) *)
| EvLog (level message : string).         (* writeLog(level, message) *)

Definition Trace := list Event.

(** [LogLevel] and its constants. *)
Definition LogLevel := Z.
Definition LevelDebug : LogLevel := 0%Z.
Definition LevelInfo : LogLevel := 1%Z.
Definition LevelWarn : LogLevel := 2%Z.
Definition LevelError : LogLevel := 3%Z.

(** [time.Millisecond], in nanoseconds as [time.Duration] counts. *)
Definition Millisecond : Z := 1000000%Z.

(** Everything outside the plugin. The answers to calls may depend on the
    history of events, so a tool can fail the second time it is run. *)
Record World : Type := mkWorld {
  GOOS : string;                                        (* runtime.GOOS *)
  Getenv : string -> string;                            (* os.Getenv *)
  currentLevel : LogLevel;                              (* the logger's level *)
  cmdOutput : Trace -> Cmd -> string * option error;    (* cmd.Output() *)
  cmdRun : Trace -> Cmd -> option error;                (* cmd.Run() *)
  lookPath : Trace -> string -> string * option error;  (* exec.LookPath *)
  pipeWrite : Trace -> string -> Z * option error       (* pipeWriter.Write *)
}.

(** ** A monad for calls into the world *)

Inductive Outcome (A : Type) : Type :=
| Returned (a : A)
| Panicked.
Arguments Returned {A} a.
Arguments Panicked {A}.

(** A computation reads the world and the history so far, and yields an
    outcome with the events it added. *)
Definition M (A : Type) : Type := World -> Trace -> Outcome A * Trace.

Definition ret {A} (a : A) : M A := fun _ _ => (Returned a, []).

Definition bind {A B} (m : M A) (f : A -> M B) : M B :=
  fun w h =>
    match m w h with
    | (Returned a, e1) =>
        match f a w (h ++ e1)%list with
        | (o, e2) => (o, (e1 ++ e2)%list)
        end
    | (Panicked, e1) => (Panicked, e1)
    end.

Notation "x <- m ;; k" := (bind m (fun x => k))
  (at level 61, m at next level, right associativity).
Notation "m ;;; k" := (bind m (fun _ => k))
  (at level 61, right associativity).

Definition panic {A} : M A := fun _ _ => (Panicked, []).

Definition ask {A} (f : World -> A) : M A := fun w _ => (Returned (f w), []).

(** One call into the world: the event is recorded, the world answers from
    the history before it. *)
Definition call {A} (ev : Event) (answer : World -> Trace -> A) : M A :=
  fun w h => (Returned (answer w h), [ev]).

Definition emit (ev : Event) : M unit := call ev (fun _ _ => tt).

(** [go func() { body }()]: the body's events are recorded as one forked
    block, the calls the worker makes when it runs to its end; its result is
    lost. Scheduling is not modelled: a worker that blocks in a call (a
    write into a pipe nobody reads any more) is not told apart from one that
    has finished, and nothing is said about when the block runs. *)
Definition go_ {A} (body : M A) : M unit :=
  fun w h => (Returned tt, [EvGo (snd (body w h))]).

(** ** The world's calls *)

Definition cmd_Output (c : Cmd) : M (string * option error) :=
  call (EvOutput c) (fun w h => cmdOutput w h c).

(** [cmd.Run()] on a [*exec.Cmd]; a nil receiver is dereferenced: a panic. *)
Definition cmd_Run (c : option Cmd) : M (option error) :=
  match c with
  | Some c => call (EvRun c) (fun w h => cmdRun w h c)
  | None => panic
  end.

Definition exec_LookPath (file : string) : M (string * option error) :=
  call (EvLookPath file) (fun w h => lookPath w h file).

(** [pipeWriter.Write(data)]: the count and the error the call returns are
    the world's answer; the plugin drops both. In this program a write that
    returns has written everything, as nothing closes the pipe's read end. *)
Definition pipeWriter_Write (data : string) : M (Z * option error) :=
  call (EvPipeWrite data) (fun w h => pipeWrite w h data).

Definition pipeWriter_Close : M unit := emit EvPipeClose.

Definition robotgo_KeyTap (key : string) (args : list string) : M unit :=
  emit (EvKeyTap key args).

Definition time_Sleep (d : Z) : M unit := emit (EvSleep d).

(** ** The logger *)

(** [writeLog] prints one line, "time [level] message"; the event keeps the
    level and the message. The clock and the logger's mutex are left out. *)
Definition writeLog (level message : string) : M unit :=
  emit (EvLog level message).

Definition Logger_Debug (message : string) : M unit :=
  lvl <- ask currentLevel ;;
  if (lvl <=? LevelDebug)%Z then writeLog "DEBUG" message else ret tt.

(** [Debugf] with a format that ends in its one [%s] verb. *)
Definition Logger_Debugf (fmt : string) (arg : string) : M unit :=
  lvl <- ask currentLevel ;;
  if (lvl <=? LevelDebug)%Z then writeLog "DEBUG" (fmt ++ arg) else ret tt.

Definition Logger_Error (message : string) (err : option error) : M unit :=
  lvl <- ask currentLevel ;;
  if (lvl <=? LevelError)%Z then
    let errMsg :=
      match err with
      | Some e => message ++ ": " ++ Error e
      | None => message
      end in
    writeLog "ERROR" errMsg
  else ret tt.

(** ** The window inspector *)

Record Window : Type := mkWindow { Title : string }.

Definition NewWindow : Window := mkWindow "".

Definition GetFocusedWindow : M (option Window * option error) :=
  r1 <- cmd_Output (exec_Command "xdotool" ["getactivewindow"]) ;;
  let '(windowID, err) := r1 in
  match err with
  | Some e => ret (None, Some e)
  | None =>
      r2 <- cmd_Output
              (exec_Command "xdotool" ["getwindowname"; TrimSpace windowID]) ;;
      let '(windowName, err) := r2 in
      match err with
      | Some e => ret (None, Some e)
      | None => ret (Some (mkWindow (TrimSpace windowName)), None)
      end
  end.

(** ** The clipboard *)

(** The platform switch of [CopyToClipboard]: it leaves with the command to
    run ([inr]; [None] is the nil [*exec.Cmd] the variable was declared
    with), or returns from the function early ([inl]). *)
Definition CopyToClipboard_switch (text : string)
  : M (option error + option Cmd) :=
  goos <- ask GOOS ;;
  if goos =? "darwin" then
    ret (inr (Some (exec_Command "pbcopy" [])))
  else if goos =? "linux" then
    lp <- exec_LookPath "xclip" ;;
    match snd lp with
    | Some _ => ret (inl (Some (fmt_Errorf "xclip is not installed")))
    | None =>
        let cmd := exec_Command "xclip" ["-selection"; "clipboard"] in
        let cmd := with_Stdin cmd StdinPipeReader in
        go_ (pipeWriter_Write text ;;; pipeWriter_Close) ;;;
        ret (inr (Some cmd))
    end
  else ret (inr None).

Definition CopyToClipboard (text : string) : M (option error) :=
  sw <- CopyToClipboard_switch text ;;
  match sw with
  | inl early => ret early
  | inr cmd => cmd_Run cmd
  end.

Section Plugin.

(** See [GoStrings.ToLower]. *)
Variable mapUnicodeToLower : string -> string.

(** The classification itself, on the value of the variable. *)
Definition isX11_value (session : string) : bool :=
  ToLower mapUnicodeToLower session =? "x11".

Definition isX11 : M bool :=
  session <- ask (fun w => Getenv w "XDG_SESSION_TYPE") ;;
  ret (isX11_value session).

Definition PasteWithReturn (text : string) : M (option error) :=
  err <- CopyToClipboard text ;;
  match err with
  | Some e => ret (Some e)
  | None =>
      x11 <- isX11 ;;
      if x11 then
        robotgo_KeyTap "v" ["ctrl"] ;;;
        robotgo_KeyTap "enter" [] ;;;
        ret None
      else
        err <- cmd_Run (Some (exec_Command "xdotool" ["key"; "ctrl+v"])) ;;
        match err with
        | Some e => ret (Some (fmt_Errorf_v "failed to paste: " e))
        | None =>
            time_Sleep (50 * Millisecond) ;;;
            err <- cmd_Run (Some (exec_Command "xdotool" ["key"; "Return"])) ;;
            match err with
            | Some e => ret (Some (fmt_Errorf_v "failed to press enter: " e))
            | None => ret None
            end
        end
  end.

(** ** The action *)

(** The title predicate of [Execute]. *)
Definition titleMatches (title : string) : bool := Contains title "VSC".

(** [GetFocusedWindow] gives a window or an error; were both nil, reading
    [focusedWindow.Title] would dereference nil. The result of
    [PasteWithReturn] is not bound to anything. *)
Definition Execute (transcription : string) : M (option error) :=
  Logger_Debugf
    "Checking if VSCode should execute action for transcription: "
    transcription ;;;
  r <- GetFocusedWindow ;;
  match r with
  | (_, Some e) =>
      Logger_Error "Error getting focused window" (Some e) ;;;
      ret (Some e)
  | (None, None) => panic
  | (Some focusedWindow, None) =>
      Logger_Debugf "Checking window title: " (Title focusedWindow) ;;;
      if negb (titleMatches (Title focusedWindow)) then
        Logger_Debug "VSCode is not open, skipping action" ;;;
        ret None
      else
        PasteWithReturn transcription ;;;
        ret None
  end.

End Plugin.

(** ** Reading a trace *)

(** A key-synthesis call: a [robotgo.KeyTap], or a run of [xdotool key]. *)
Definition isKeySynthesis (ev : Event) : bool :=
  match ev with
  | EvKeyTap _ _ => true
  | EvRun c =>
      match Args c with
      | tool :: sub :: _ => (tool =? "xdotool") && (sub =? "key")
      | _ => false
      end
  | _ => false
  end.

(** A clipboard call: the look-up or a run of a clipboard tool, or the
    worker that feeds it. *)
Definition isClipboardCall (ev : Event) : bool :=
  match ev with
  | EvLookPath _ => true
  | EvRun c => (Path c =? "pbcopy") || (Path c =? "xclip")
  | EvGo _ | EvPipeWrite _ | EvPipeClose => true
  | _ => false
  end.

Definition isSleep (ev : Event) : bool :=
  match ev with
  | EvSleep _ => true
  | _ => false
  end.

(** A run of one of the two clipboard tools. *)
Definition isClipboardRun (ev : Event) : bool :=
  match ev with
  | EvRun c => (Path c =? "pbcopy") || (Path c =? "xclip")
  | _ => false
  end.

(** Work on the pipe: the fork of a worker, a write, a close. *)
Definition isPipeWork (ev : Event) : bool :=
  match ev with
  | EvGo _ | EvPipeWrite _ | EvPipeClose => true
  | _ => false
  end.

(** ** Sample worlds *)

Module Samples.

Definition windowId : string := "4194311".

Definition newline : string := String (ascii_of_nat 10) "".

(** [xdotool] as it answers on a desktop whose focused window has the
    given title. *)
Definition xdotoolOutput (title : string) (c : Cmd) : string * option error :=
  match Args c with
  | [tool; "getactivewindow"] => (windowId ++ newline, None)
  | [tool; "getwindowname"; id] =>
      if id =? windowId then (title ++ newline, None)
      else ("", Some (OSError "exit status 1"))
  | _ => ("", Some (OSError "exit status 1"))
  end.

(** A desktop: operating system, session type, log level, title of the
    focused window, whether [xclip] is installed, what running a command
    gives, what a write into the pipe gives. *)
Definition desktop (goos session : string) (level : LogLevel)
    (title : string) (xclipInstalled : bool)
    (run : Cmd -> option error) (write : string -> Z * option error)
  : World :=
  mkWorld goos
    (fun key => if key =? "XDG_SESSION_TYPE" then session else "")
    level
    (fun _ c => xdotoolOutput title c)
    (fun _ c => run c)
    (fun _ file =>
       if xclipInstalled then ("/usr/bin/" ++ file, None)
       else ("", Some (OSError
               ("exec: " ++ file ++ ": executable file not found in $PATH"))))
    (fun _ data => write data).

Definition runsFine (c : Cmd) : option error := None.
Definition writesAll (data : string) : Z * option error :=
  (Z.of_nat (String.length data), None).

(** No Unicode case tables: strings outside ASCII are left as they are.
    Enough for the ASCII session types of the samples. *)
Definition noUnicode (s : string) : string := s.

(** No active window: the first query fails. *)
Definition noWindow : World :=
  mkWorld "linux" (fun _ => "") LevelInfo
    (fun _ _ => ("", Some (OSError "exit status 1")))
    (fun _ _ => None)
    (fun _ file => ("/usr/bin/" ++ file, None))
    (fun _ data => writesAll data).

End Samples.

(** ** Vocabulary of the statements *)

(** The debug lines a logger at the world's level writes. *)
Definition debugLine (w : World) (message : string) : Trace :=
  if (currentLevel w <=? LevelDebug)%Z then [EvLog "DEBUG" message] else [].

Definition activeWindowQuery : Cmd :=
  exec_Command "xdotool" ["getactivewindow"].

Definition windowNameQuery (windowID : string) : Cmd :=
  exec_Command "xdotool" ["getwindowname"; TrimSpace windowID].

(** A failure of one of the two queries of [GetFocusedWindow] called at
    history [h]: its cause, and the queries made up to it. *)
Inductive QueryFails (w : World) (h : Trace) (cause : error)
  : Trace -> Prop :=
| ActiveWindowFails out :
    cmdOutput w h activeWindowQuery = (out, Some cause) ->
    QueryFails w h cause [EvOutput activeWindowQuery]
| WindowNameFails windowID out :
    cmdOutput w h activeWindowQuery = (windowID, None) ->
    cmdOutput w (h ++ [EvOutput activeWindowQuery])%list
              (windowNameQuery windowID) = (out, Some cause) ->
    QueryFails w h cause
      [EvOutput activeWindowQuery; EvOutput (windowNameQuery windowID)].

(** Both queries answer: the identifier, then the title for it. *)
Definition QueriesSucceed (w : World) (h : Trace) (windowID title : string)
  : Prop :=
  cmdOutput w h activeWindowQuery = (windowID, None) /\
  cmdOutput w (h ++ [EvOutput activeWindowQuery])%list
            (windowNameQuery windowID) = (title, None).

Definition pbcopyCmd : Cmd := exec_Command "pbcopy" [].

Definition xclipCmd : Cmd :=
  with_Stdin (exec_Command "xclip" ["-selection"; "clipboard"])
             StdinPipeReader.

(** What the Linux path does before it runs the helper. *)
Definition xclipSetup (text : string) : Trace :=
  [EvLookPath "xclip"; EvGo [EvPipeWrite text; EvPipeClose]].

Ltac run_copy :=
  unfold CopyToClipboard, CopyToClipboard_switch, bind, ask, ret, cmd_Run,
    exec_LookPath, go_, pipeWriter_Write, pipeWriter_Close, emit, call, panic.

(** The four ways a call of [CopyToClipboard] can go. *)
Inductive CopyCase (text : string) (w : World) (h : Trace) : Prop :=
| CopyDarwin :
    CopyToClipboard text w h =
      (Returned (cmdRun w h pbcopyCmd), [EvRun pbcopyCmd]) ->
    CopyCase text w h
| CopyLinux :
    CopyToClipboard text w h =
      (Returned (cmdRun w (h ++ xclipSetup text)%list xclipCmd),
       (xclipSetup text ++ [EvRun xclipCmd])%list) ->
    CopyCase text w h
| CopyNoXclip :
    CopyToClipboard text w h =
      (Returned (Some (errorString "xclip is not installed")),
       [EvLookPath "xclip"]) ->
    CopyCase text w h
| CopyPanics :
    CopyToClipboard text w h = (Panicked, []) ->
    CopyCase text w h.

(** Running the helper of the Linux path fails. *)
Definition helperFails (w : World) (h : Trace) : Prop :=
  cmdRun w h xclipCmd <> None.

Module HelperFailure.

Definition helperExits1 (c : Cmd) : option error :=
  if Path c =? "xclip" then Some (OSError "exit status 1") else None.

(** [xclip] is installed and exits with status 1. *)
Definition helperFailsWorld : World :=
  Samples.desktop "linux" "wayland" LevelInfo "main.go - VSCodium"
    true helperExits1 Samples.writesAll.

End HelperFailure.

Definition pasteKey : Cmd := exec_Command "xdotool" ["key"; "ctrl+v"].
Definition returnKey : Cmd := exec_Command "xdotool" ["key"; "Return"].

(** The synthesis of the legacy (X11) path, and of the path through the
    XWayland compatibility layer. *)
Definition legacySynthesis : Trace :=
  [EvKeyTap "v" ["ctrl"]; EvKeyTap "enter" []].

Definition shimSynthesis : Trace :=
  [EvRun pasteKey; EvSleep (50 * Millisecond); EvRun returnKey].

Ltac run_paste :=
  unfold PasteWithReturn, isX11, bind, ask, ret, robotgo_KeyTap, time_Sleep,
    cmd_Run, emit, call.

(** A call that injects: a clipboard call or a key synthesis. *)
Definition isInjectionCall (ev : Event) : bool :=
  isClipboardCall ev || isKeySynthesis ev.

Definition executeOpening (w : World) (transcription : string) : Trace :=
  debugLine w
    ("Checking if VSCode should execute action for transcription: "
     ++ transcription).

Definition executeTitleLine (w : World) (title : string) : Trace :=
  debugLine w ("Checking window title: " ++ title).

Module SwallowedFailure.

(** A Linux desktop without [xclip], the editor focused. *)
Definition noXclip : World :=
  Samples.desktop "linux" "x11" LevelInfo "main.go - VSCodium"
    false Samples.runsFine Samples.writesAll.

Definition pasteKeyFails (c : Cmd) : option error :=
  match Args c with
  | [tool; "key"; "ctrl+v"] => Some (OSError "exit status 1")
  | _ => None
  end.

(** A Wayland desktop where [xdotool key ctrl+v] fails. *)
Definition pasteFails : World :=
  Samples.desktop "linux" "wayland" LevelInfo "main.go - VSCodium"
    true pasteKeyFails Samples.writesAll.

Definition queries : Trace :=
  [EvOutput activeWindowQuery; EvOutput (windowNameQuery "4194311")].

End SwallowedFailure.

(** ** The rest of the logger *)

Definition Logger_Info (message : string) : M unit :=
  lvl <- ask currentLevel ;;
  if (lvl <=? LevelInfo)%Z then writeLog "INFO" message else ret tt.

Definition Logger_Warn (message : string) : M unit :=
  lvl <- ask currentLevel ;;
  if (lvl <=? LevelWarn)%Z then writeLog "WARN" message else ret tt.

(** [SetLogLevel(level)] assigns the global [currentLevel]: the world
    after the call. *)
Definition SetLogLevel (level : LogLevel) (w : World) : World :=
  mkWorld (GOOS w) (Getenv w) level (cmdOutput w) (cmdRun w) (lookPath w)
          (pipeWrite w).

(** The line [Logger.Error] writes at the world's level. *)
Definition errorLine (w : World) (message : string) : Trace :=
  if (currentLevel w <=? LevelError)%Z then [EvLog "ERROR" message] else [].

(** A logger call that writes nothing, and one that writes one line. *)
Definition silent (m : M unit) (w : World) (h : Trace) : Prop :=
  m w h = (Returned tt, []).

Definition writesLine (m : M unit) (w : World) (h : Trace)
    (level message : string) : Prop :=
  m w h = (Returned tt, [EvLog level message]).

(** ** Vocabulary of the further statements *)

(** A string with no white space at either end. *)
Definition trimmed (s : string) : Prop :=
  leadingSpace s = 0 /\ trailingSpace (rev (list_ascii_of_string s)) = 0.

(** One of the two operating systems the platform switch knows. *)
Definition supportedOS (w : World) : Prop :=
  GOOS w = "darwin" \/ GOOS w = "linux".

(** A run of [xdotool], for any subcommand. *)
Definition isXdotoolRun (ev : Event) : bool :=
  match ev with
  | EvRun c => Path c =? "xdotool"
  | _ => false
  end.

Module MoreSamples.

(** A logger that was told to write nothing. *)
Definition muted : World := SetLogLevel 4%Z Samples.noWindow.

(** The title query fails for the window that is reported active. *)
Definition titleQueryFails : World :=
  mkWorld "linux" (fun _ => "") LevelInfo
    (fun _ c =>
       match Args c with
       | [tool; "getactivewindow"] => ("4194311", None)
       | _ => ("", Some (OSError "exit status 1"))
       end)
    (fun _ _ => None)
    (fun _ file => ("/usr/bin/" ++ file, None))
    (fun _ data => Samples.writesAll data).

Definition returnKeyFails (c : Cmd) : option error :=
  match Args c with
  | [tool; "key"; "Return"] => Some (OSError "exit status 1")
  | _ => None
  end.

(** A Wayland desktop where [xdotool key Return] fails. *)
Definition enterFails : World :=
  Samples.desktop "linux" "wayland" LevelInfo "main.go - VSCodium"
    true returnKeyFails Samples.writesAll.

(** An editor with white space around its title. *)
Definition paddedTitle : World :=
  Samples.desktop "linux" "x11" LevelInfo "  main.go - VSCodium  "
    true Samples.runsFine Samples.writesAll.

(** The editor focused on an operating system without a clipboard case. *)
Definition otherOS : World :=
  Samples.desktop "freebsd" "x11" LevelInfo "main.go - VSCodium"
    true Samples.runsFine Samples.writesAll.

End MoreSamples.

(** ** Facts about the string functions *)




Lemma mapBytes_lower_noupper (s : string) :
  hasUpper s = false -> mapBytes lowerByte s = s.
Proof.
  induction s as [|c s IH]; simpl; [reflexivity|].
  intros H. apply orb_false_iff in H as [Hc Hs].
  rewrite (IH Hs). unfold lowerByte. now rewrite Hc.
Qed.

(** On ASCII strings [ToLower] is the byte-wise lowering, whatever the
    Unicode tables say. *)
Lemma ToLower_ascii (f : string -> string) (s : string) :
  isASCII s = true -> ToLower f s = mapBytes lowerByte s.
Proof.
  intros H. unfold ToLower. rewrite H.
  destruct (hasUpper s) eqn:Hu; [reflexivity|].
  symmetry. now apply mapBytes_lower_noupper.
Qed.

(** The bytes whose lowering is a given lower-case letter or digit. *)
Lemma lowerByte_x (c : ascii) :
  lowerByte c = "x"%char -> c = "x"%char \/ c = "X"%char.
Proof.
  destruct c as [[] [] [] [] [] [] [] []]; vm_compute; intros H;
    try discriminate; auto.
Qed.

Lemma lowerByte_1 (c : ascii) : lowerByte c = "1"%char -> c = "1"%char.
Proof.
  destruct c as [[] [] [] [] [] [] [] []]; vm_compute; intros H;
    try discriminate; auto.
Qed.

Lemma mapBytes_lower_x11 (s : string) :
  mapBytes lowerByte s = "x11" <-> s = "x11" \/ s = "X11".
Proof.
  split.
  - destruct s as [|a [|b [|c [|d s]]]]; simpl; try discriminate.
    intros H. injection H as Ha Hb Hc.
    apply lowerByte_1 in Hb, Hc. subst b c.
    apply lowerByte_x in Ha as [->| ->]; auto.
  - intros [->| ->]; reflexivity.
Qed.

Lemma append_empty_r (s : string) : s ++ "" = s.
Proof. induction s as [|c s IH]; simpl; [reflexivity | now rewrite IH]. Qed.

(** The functions on sample inputs. *)
Example TrimSpace_window_id :
  TrimSpace (" 4194311 " ++ Samples.newline) = "4194311".
Proof. reflexivity. Qed.

Example titleMatches_samples :
  titleMatches "main.go - VSCodium" = true /\
  titleMatches "Terminal" = false /\
  titleMatches "file.py - Visual Studio Code" = false.
Proof. repeat split. Qed.

(** ** Facts about the monad *)

Lemma bind_returned {A B} (m : M A) (f : A -> M B) w h a e1 :
  m w h = (Returned a, e1) ->
  bind m f w h = (fst (f a w (h ++ e1)%list), (e1 ++ snd (f a w (h ++ e1)%list))%list).
Proof.
  intros H. unfold bind. rewrite H. now destruct (f a w (h ++ e1)%list).
Qed.

Lemma bind_panicked {A B} (m : M A) (f : A -> M B) w h e1 :
  m w h = (Panicked, e1) -> bind m f w h = (Panicked, e1).
Proof. intros H. unfold bind. now rewrite H. Qed.

Lemma Logger_Debug_run message w h :
  Logger_Debug message w h = (Returned tt, debugLine w message).
Proof.
  unfold Logger_Debug, debugLine, bind, ask, writeLog, emit, call, ret.
  now destruct (currentLevel w <=? LevelDebug)%Z.
Qed.

Lemma Logger_Debugf_run fmt arg w h :
  Logger_Debugf fmt arg w h = (Returned tt, debugLine w (fmt ++ arg)).
Proof.
  unfold Logger_Debugf, debugLine, bind, ask, writeLog, emit, call, ret.
  now destruct (currentLevel w <=? LevelDebug)%Z.
Qed.

(** ** The window inspector *)

Lemma GetFocusedWindow_success w h windowID title :
  QueriesSucceed w h windowID title ->
  GetFocusedWindow w h =
    (Returned (Some (mkWindow (TrimSpace title)), None),
     [EvOutput activeWindowQuery; EvOutput (windowNameQuery windowID)]).
Proof.
  intros [H1 H2].
  unfold GetFocusedWindow, bind, cmd_Output, call, ret.
  fold activeWindowQuery. rewrite H1. simpl.
  fold (windowNameQuery windowID). rewrite H2. reflexivity.
Qed.

(** C4. [GetFocusedWindow] asks for the active window's identifier and
    then for the title of that identifier; when either query fails it
    returns the query's error, which is the underlying cause, and no
    window; the title query is not made when the first one failed. *)
Theorem GetFocusedWindow_query_failure (w : World) (h : Trace)
    (cause : error) (events : Trace) :
  QueryFails w h cause events ->
  GetFocusedWindow w h = (Returned (None, Some cause), events).
Proof.
  intros Hq.
  unfold GetFocusedWindow, bind, cmd_Output, call, ret.
  fold activeWindowQuery.
  destruct Hq as [out H1 | windowID out H1 H2].
  - rewrite H1. reflexivity.
  - rewrite H1. simpl. fold (windowNameQuery windowID).
    rewrite H2. reflexivity.
Qed.

(** An error of [GetFocusedWindow] is always the error of a failed query. *)
Lemma GetFocusedWindow_error_inv w h win cause events :
  GetFocusedWindow w h = (Returned (win, Some cause), events) ->
  QueryFails w h cause events /\ win = None.
Proof.
  unfold GetFocusedWindow, bind, cmd_Output, call, ret.
  fold activeWindowQuery.
  destruct (cmdOutput w h activeWindowQuery) as [windowID [e1|]] eqn:H1; simpl.
  - intros H. injection H as <- <- <-.
    split; [eapply ActiveWindowFails; eauto | reflexivity].
  - fold (windowNameQuery windowID).
    destruct (cmdOutput w (h ++ [EvOutput activeWindowQuery])%list
                (windowNameQuery windowID)) as [title [e2|]] eqn:H2; simpl.
    + intros H. injection H as <- <- <-.
      split; [eapply WindowNameFails; eauto | reflexivity].
    + discriminate.
Qed.

Lemma GetFocusedWindow_witness :
  GetFocusedWindow Samples.noWindow [] =
    (Returned (None, Some (OSError "exit status 1")),
     [EvOutput activeWindowQuery]).
Proof.
  apply (@GetFocusedWindow_query_failure Samples.noWindow []
           (OSError "exit status 1") [EvOutput activeWindowQuery]).
  apply ActiveWindowFails with (out := ""). reflexivity.
Defined.

(** ** The clipboard, platform by platform *)

Lemma CopyToClipboard_darwin text w h :
  GOOS w = "darwin" ->
  CopyToClipboard text w h = (Returned (cmdRun w h pbcopyCmd), [EvRun pbcopyCmd]).
Proof.
  intros Hos. run_copy. rewrite Hos. simpl.
  now rewrite app_nil_r.
Qed.

Lemma CopyToClipboard_linux_present text w h path :
  GOOS w = "linux" ->
  lookPath w h "xclip" = (path, None) ->
  CopyToClipboard text w h =
    (Returned (cmdRun w (h ++ xclipSetup text)%list xclipCmd),
     (xclipSetup text ++ [EvRun xclipCmd])%list).
Proof.
  intros Hos Hlp. run_copy. rewrite Hos. simpl.
  rewrite ?app_nil_r, Hlp. simpl.
  now rewrite ?app_nil_r, <- ?app_assoc.
Qed.

Lemma CopyToClipboard_linux_missing text w h path e :
  GOOS w = "linux" ->
  lookPath w h "xclip" = (path, Some e) ->
  CopyToClipboard text w h =
    (Returned (Some (errorString "xclip is not installed")),
     [EvLookPath "xclip"]).
Proof.
  intros Hos Hlp. run_copy. rewrite Hos. simpl.
  now rewrite ?app_nil_r, Hlp.
Qed.

Lemma CopyToClipboard_other_os text w h :
  GOOS w <> "darwin" -> GOOS w <> "linux" ->
  CopyToClipboard text w h = (Panicked, []).
Proof.
  intros Hd Hl. apply String.eqb_neq in Hd, Hl.
  run_copy. now rewrite Hd, Hl.
Qed.

Lemma CopyToClipboard_cases text w h : CopyCase text w h.
Proof.
  destruct (string_dec (GOOS w) "darwin") as [Hd|Hd].
  - apply CopyDarwin. now apply CopyToClipboard_darwin.
  - destruct (string_dec (GOOS w) "linux") as [Hl|Hl].
    + destruct (lookPath w h "xclip") as [path [e|]] eqn:Hlp.
      * apply CopyNoXclip. now apply CopyToClipboard_linux_missing with path e.
      * apply CopyLinux. now apply CopyToClipboard_linux_present with path.
    + apply CopyPanics. now apply CopyToClipboard_other_os.
Qed.

(** [CopyToClipboard] never synthesizes a key. *)
Lemma CopyToClipboard_no_key_synthesis text w h :
  existsb isKeySynthesis (snd (CopyToClipboard text w h)) = false.
Proof.
  destruct (CopyToClipboard_cases text w h) as [H|H|H|H];
    rewrite H; reflexivity.
Qed.

(** C9. On Linux [CopyToClipboard] first looks [xclip] up on the search
    path; when the look-up fails it returns the error "xclip is not
    installed" at once: the look-up is the only call made, the helper is not
    run and no payload is written. *)
Theorem CopyToClipboard_fails_fast_without_xclip
    (text : string) (w : World) (h : Trace) (path : string) (e : error) :
  GOOS w = "linux" ->
  lookPath w h "xclip" = (path, Some e) ->
  CopyToClipboard text w h =
    (Returned (Some (fmt_Errorf "xclip is not installed")),
     [EvLookPath "xclip"]) /\
  existsb isClipboardRun (snd (CopyToClipboard text w h)) = false /\
  existsb isPipeWork (snd (CopyToClipboard text w h)) = false.
Proof.
  intros Hos Hlp.
  rewrite (@CopyToClipboard_linux_missing text w h path e Hos Hlp).
  repeat split.
Qed.

Lemma CopyToClipboard_fails_fast_witness :
  let w := Samples.desktop "linux" "wayland" LevelInfo "main.go - VSCodium"
             false Samples.runsFine Samples.writesAll in
  CopyToClipboard "hello" w [] =
    (Returned (Some (fmt_Errorf "xclip is not installed")),
     [EvLookPath "xclip"]) /\
  existsb isClipboardRun (snd (CopyToClipboard "hello" w [])) = false /\
  existsb isPipeWork (snd (CopyToClipboard "hello" w [])) = false.
Proof.
  intros w.
  apply (@CopyToClipboard_fails_fast_without_xclip "hello" w [] ""
           (OSError "exec: xclip: executable file not found in $PATH"));
    reflexivity.
Defined.

(** C10. On an operating system that is neither "darwin" nor "linux" the
    switch leaves the command nil and running it panics: [CopyToClipboard]
    returns no error value, and nothing has been called. *)
Theorem CopyToClipboard_panics_on_other_os
    (text : string) (w : World) (h : Trace) :
  GOOS w <> "darwin" -> GOOS w <> "linux" ->
  CopyToClipboard_switch text w h = (Returned (inr None), []) /\
  CopyToClipboard text w h = (Panicked, []) /\
  forall err events, CopyToClipboard text w h <> (Returned err, events).
Proof.
  intros Hd Hl. split; [|split].
  - apply String.eqb_neq in Hd, Hl.
    unfold CopyToClipboard_switch, bind, ask, ret. now rewrite Hd, Hl.
  - now apply CopyToClipboard_other_os.
  - intros err events. rewrite (@CopyToClipboard_other_os text w h Hd Hl).
    discriminate.
Qed.

Lemma CopyToClipboard_panics_witness :
  let w := Samples.desktop "windows" "" LevelInfo "main.go - VSCodium"
             true Samples.runsFine Samples.writesAll in
  CopyToClipboard_switch "hello" w [] = (Returned (inr None), []) /\
  CopyToClipboard "hello" w [] = (Panicked, []) /\
  forall err events, CopyToClipboard "hello" w [] <> (Returned err, events).
Proof.
  intros w.
  apply (@CopyToClipboard_panics_on_other_os "hello" w []); discriminate.
Defined.

(** ** What the clipboard tool is given *)

(** On Linux the text is what the worker writes into the pipe [xclip]
    reads its standard input from. *)
Lemma CopyToClipboard_linux_payload text w h path :
  GOOS w = "linux" ->
  lookPath w h "xclip" = (path, None) ->
  snd (CopyToClipboard text w h) =
    [EvLookPath "xclip"; EvGo [EvPipeWrite text; EvPipeClose]; EvRun xclipCmd] /\
  Stdin xclipCmd = StdinPipeReader.
Proof.
  intros Hos Hlp.
  rewrite (@CopyToClipboard_linux_present text w h path Hos Hlp).
  split; reflexivity.
Qed.

(** On macOS [pbcopy] is run with no standard input set and no pipe is
    made: the call does the same whatever the text is. *)
Lemma CopyToClipboard_darwin_payload text w h :
  GOOS w = "darwin" ->
  snd (CopyToClipboard text w h) = [EvRun pbcopyCmd] /\
  Stdin pbcopyCmd = StdinNil /\
  CopyToClipboard text w h = CopyToClipboard "" w h.
Proof.
  intros Hos.
  rewrite (@CopyToClipboard_darwin text w h Hos),
          (@CopyToClipboard_darwin "" w h Hos).
  repeat split.
Qed.

(** C2, at the failing input: on macOS [CopyToClipboard "hello"] runs
    [pbcopy] with nil standard input and writes the text nowhere: the tool
    is given nothing, not the text, and the call still reports success. The
    Linux path, on the same text, has a worker write it into the pipe that
    is the standard input of [xclip]. *)
Theorem CopyToClipboard_darwin_text_not_passed :
  let mac := Samples.desktop "darwin" "" LevelInfo "main.go - VSCodium"
               true Samples.runsFine Samples.writesAll in
  let linux := Samples.desktop "linux" "" LevelInfo "main.go - VSCodium"
                 true Samples.runsFine Samples.writesAll in
  CopyToClipboard "hello" mac [] = (Returned None, [EvRun pbcopyCmd]) /\
  Stdin pbcopyCmd = StdinNil /\
  existsb isPipeWork (snd (CopyToClipboard "hello" mac [])) = false /\
  CopyToClipboard "hello" mac [] = CopyToClipboard "" mac [] /\
  CopyToClipboard "hello" linux [] =
    (Returned None,
     [EvLookPath "xclip"; EvGo [EvPipeWrite "hello"; EvPipeClose];
      EvRun xclipCmd]) /\
  Stdin xclipCmd = StdinPipeReader.
Proof. repeat split. Qed.

(** ** The Linux path: worker and helper *)

(** X13. On the Linux path, with [xclip] found, [CopyToClipboard] forks
    the worker (a write of the text into the pipe, then a close), runs the
    helper with the pipe's read end as its standard input, and returns
    exactly what running the helper returns: an error if and only if the
    helper's run fails, and then that error. *)
Theorem CopyToClipboard_linux_returns_helper_result
    (text : string) (w : World) (h : Trace) (path : string) :
  GOOS w = "linux" ->
  lookPath w h "xclip" = (path, None) ->
  CopyToClipboard text w h =
    (Returned (cmdRun w (h ++ xclipSetup text)%list xclipCmd),
     (xclipSetup text ++ [EvRun xclipCmd])%list) /\
  (helperFails w (h ++ xclipSetup text)%list <->
   exists e events, CopyToClipboard text w h = (Returned (Some e), events)).
Proof.
  intros Hos Hlp.
  pose proof (@CopyToClipboard_linux_present text w h path Hos Hlp) as Hrun.
  split; [exact Hrun|].
  rewrite Hrun. unfold helperFails. split.
  - intros Hf.
    destruct (cmdRun w (h ++ xclipSetup text)%list xclipCmd) as [e|];
      [eauto | now elim Hf].
  - intros [e [events H]]. injection H as H _. now rewrite H.
Qed.

Lemma CopyToClipboard_linux_witness :
  CopyToClipboard "hello" HelperFailure.helperFailsWorld [] =
    (Returned (Some (OSError "exit status 1")),
     (xclipSetup "hello" ++ [EvRun xclipCmd])%list) /\
  (helperFails HelperFailure.helperFailsWorld ([] ++ xclipSetup "hello")%list <->
   exists e events,
     CopyToClipboard "hello" HelperFailure.helperFailsWorld [] =
       (Returned (Some e), events)).
Proof.
  apply (@CopyToClipboard_linux_returns_helper_result "hello"
           HelperFailure.helperFailsWorld [] "/usr/bin/xclip");
    reflexivity.
Defined.

(** ** Paste and commit *)

(** An error of the copy ends [PasteWithReturn] with that error. *)
Lemma PasteWithReturn_copy_error f text w h e events :
  CopyToClipboard text w h = (Returned (Some e), events) ->
  PasteWithReturn f text w h = (Returned (Some e), events).
Proof.
  intros Hcopy. unfold PasteWithReturn.
  erewrite bind_returned by exact Hcopy. unfold ret. simpl.
  now rewrite app_nil_r.
Qed.

(** C5. When [CopyToClipboard text] returns an error, [PasteWithReturn
    text] returns that same error and makes no call beyond those of
    [CopyToClipboard]: none of its events is a key synthesis, on either
    session type. *)
Theorem PasteWithReturn_aborts_on_copy_failure
    (mapUnicodeToLower : string -> string)
    (text : string) (w : World) (h : Trace) (e : error) (events : Trace) :
  CopyToClipboard text w h = (Returned (Some e), events) ->
  PasteWithReturn mapUnicodeToLower text w h = (Returned (Some e), events) /\
  existsb isKeySynthesis
    (snd (PasteWithReturn mapUnicodeToLower text w h)) = false.
Proof.
  intros Hcopy.
  pose proof (PasteWithReturn_copy_error mapUnicodeToLower text w h e events
                Hcopy) as Hp.
  split; [exact Hp|].
  rewrite Hp. simpl.
  pose proof (CopyToClipboard_no_key_synthesis text w h) as Hk.
  now rewrite Hcopy in Hk.
Qed.

Lemma PasteWithReturn_aborts_witness :
  let w := Samples.desktop "linux" "x11" LevelInfo "main.go - VSCodium"
             false Samples.runsFine Samples.writesAll in
  PasteWithReturn Samples.noUnicode "hello" w [] =
    (Returned (Some (errorString "xclip is not installed")),
     [EvLookPath "xclip"]) /\
  existsb isKeySynthesis
    (snd (PasteWithReturn Samples.noUnicode "hello" w [])) = false.
Proof.
  intros w.
  apply (@PasteWithReturn_aborts_on_copy_failure Samples.noUnicode "hello" w []
           (errorString "xclip is not installed") [EvLookPath "xclip"]).
  reflexivity.
Defined.

(** After a successful copy [PasteWithReturn] goes by the session type. *)
Lemma PasteWithReturn_legacy f text w h copy :
  CopyToClipboard text w h = (Returned None, copy) ->
  isX11_value f (Getenv w "XDG_SESSION_TYPE") = true ->
  PasteWithReturn f text w h = (Returned None, (copy ++ legacySynthesis)%list).
Proof.
  intros Hcopy Hx. run_paste. rewrite Hcopy, Hx. reflexivity.
Qed.

Lemma PasteWithReturn_shim f text w h copy :
  CopyToClipboard text w h = (Returned None, copy) ->
  isX11_value f (Getenv w "XDG_SESSION_TYPE") = false ->
  PasteWithReturn f text w h =
    match cmdRun w (h ++ copy)%list pasteKey with
    | Some e =>
        (Returned (Some (fmt_Errorf_v "failed to paste: " e)),
         (copy ++ [EvRun pasteKey])%list)
    | None =>
        match cmdRun w (h ++ copy ++ [EvRun pasteKey; EvSleep (50 * Millisecond)])%list
                     returnKey with
        | Some e =>
            (Returned (Some (fmt_Errorf_v "failed to press enter: " e)),
             (copy ++ shimSynthesis)%list)
        | None => (Returned None, (copy ++ shimSynthesis)%list)
        end
    end.
Proof.
  intros Hcopy Hx. run_paste. rewrite Hcopy, Hx. simpl.
  rewrite ?app_nil_r. fold pasteKey.
  destruct (cmdRun w (h ++ copy)%list pasteKey) as [e|]; [reflexivity|].
  simpl. rewrite <- ?app_assoc. simpl. fold returnKey.
  now destruct (cmdRun w _ returnKey).
Qed.

(** C7. A successful [PasteWithReturn] is a successful copy followed, on
    the legacy (X11) path, by the paste tap and the Enter tap with nothing
    between them, and, on the compatibility path, by the paste key, a sleep
    of 50 milliseconds and the Return key: paste comes before Enter on both,
    and only the second path has a delay, of some tens of milliseconds. *)
Theorem PasteWithReturn_success_sequence
    (mapUnicodeToLower : string -> string)
    (text : string) (w : World) (h : Trace) (events : Trace) :
  PasteWithReturn mapUnicodeToLower text w h = (Returned None, events) ->
  (exists copy,
     CopyToClipboard text w h = (Returned None, copy) /\
     events =
       (copy ++ if isX11_value mapUnicodeToLower (Getenv w "XDG_SESSION_TYPE")
                then [EvKeyTap "v" ["ctrl"]; EvKeyTap "enter" []]
                else [EvRun pasteKey; EvSleep (50 * Millisecond);
                      EvRun returnKey])%list) /\
  existsb isSleep legacySynthesis = false /\
  (10 * Millisecond <= 50 * Millisecond < 100 * Millisecond)%Z.
Proof.
  intros Hp. split; [|split; [reflexivity | unfold Millisecond; lia]].
  destruct (CopyToClipboard text w h) as [[[e|]|] copy] eqn:Hcopy.
  - rewrite (PasteWithReturn_copy_error mapUnicodeToLower text w h e copy
               Hcopy) in Hp.
    discriminate.
  - exists copy. split; [reflexivity|].
    destruct (isX11_value mapUnicodeToLower (Getenv w "XDG_SESSION_TYPE"))
      eqn:Hx.
    + rewrite (PasteWithReturn_legacy mapUnicodeToLower text w h copy Hcopy Hx) in Hp.
      now injection Hp as <-.
    + rewrite (PasteWithReturn_shim mapUnicodeToLower text w h copy Hcopy Hx) in Hp.
      destruct (cmdRun w (h ++ copy)%list pasteKey); [discriminate|].
      destruct (cmdRun w _ returnKey); [discriminate|].
      now injection Hp as <-.
  - unfold PasteWithReturn in Hp.
    erewrite bind_panicked in Hp by exact Hcopy. discriminate.
Qed.

Lemma PasteWithReturn_success_witness :
  let w := Samples.desktop "linux" "wayland" LevelInfo "main.go - VSCodium"
             true Samples.runsFine Samples.writesAll in
  (exists copy,
     CopyToClipboard "hello" w [] = (Returned None, copy) /\
     (xclipSetup "hello" ++ [EvRun xclipCmd] ++ shimSynthesis)%list =
       (copy ++ if isX11_value Samples.noUnicode (Getenv w "XDG_SESSION_TYPE")
                then [EvKeyTap "v" ["ctrl"]; EvKeyTap "enter" []]
                else [EvRun pasteKey; EvSleep (50 * Millisecond);
                      EvRun returnKey])%list) /\
  existsb isSleep legacySynthesis = false /\
  (10 * Millisecond <= 50 * Millisecond < 100 * Millisecond)%Z.
Proof.
  intros w.
  apply (@PasteWithReturn_success_sequence Samples.noUnicode "hello" w []
           (xclipSetup "hello" ++ [EvRun xclipCmd] ++ shimSynthesis)%list).
  reflexivity.
Defined.

(** The legacy path on a sample desktop. *)
Example PasteWithReturn_x11_sample :
  PasteWithReturn Samples.noUnicode "hello"
    (Samples.desktop "linux" "X11" LevelInfo "main.go - VSCodium"
       true Samples.runsFine Samples.writesAll) [] =
    (Returned None,
     (xclipSetup "hello" ++ [EvRun xclipCmd] ++ legacySynthesis)%list).
Proof. reflexivity. Qed.

(** ** The session classification *)

Lemma isX11_value_ascii f v :
  isASCII v = true ->
  (isX11_value f v = true <-> mapBytes lowerByte v = "x11").
Proof.
  intros Ha. unfold isX11_value. rewrite (ToLower_ascii f v Ha).
  apply String.eqb_eq.
Qed.

Lemma isX11_value_iff f v :
  (forall s, isASCII s = false -> f s <> "x11") ->
  (isX11_value f v = true <-> v = "x11" \/ v = "X11").
Proof.
  intros Hf. destruct (isASCII v) eqn:Ha.
  - rewrite (isX11_value_ascii f v Ha). apply mapBytes_lower_x11.
  - split.
    + unfold isX11_value, ToLower. rewrite Ha. intros H.
      apply String.eqb_eq in H. now elim (Hf v Ha).
    + intros [-> | ->]; discriminate Ha.
Qed.

(** C6. [isX11] makes no call and is decided by the value of
    XDG_SESSION_TYPE alone: it is true exactly when the value is "x11" up to
    the case of its letters, that is for "x11" and "X11"; every other value,
    the empty one of an unset variable, "wayland" and "unknown" among them,
    gives false, and [PasteWithReturn] then takes the compatibility path.
    The Unicode case tables are assumed to map no string with a byte outside
    ASCII to "x11". *)
Theorem isX11_classification
    (mapUnicodeToLower : string -> string)
    (Htables : forall s, isASCII s = false -> mapUnicodeToLower s <> "x11")
    (w : World) (h : Trace) :
  isX11 mapUnicodeToLower w h =
    (Returned (isX11_value mapUnicodeToLower (Getenv w "XDG_SESSION_TYPE")), []) /\
  (forall v, isX11_value mapUnicodeToLower v = true
             <-> mapBytes lowerByte v = "x11") /\
  (forall v, isX11_value mapUnicodeToLower v = true
             <-> v = "x11" \/ v = "X11") /\
  (isX11_value mapUnicodeToLower "X11" = true /\
   isX11_value mapUnicodeToLower "x11" = true /\
   isX11_value mapUnicodeToLower "" = false /\
   isX11_value mapUnicodeToLower "wayland" = false /\
   isX11_value mapUnicodeToLower "unknown" = false) /\
  (forall text copy,
     CopyToClipboard text w h = (Returned None, copy) ->
     if isX11_value mapUnicodeToLower (Getenv w "XDG_SESSION_TYPE")
     then snd (PasteWithReturn mapUnicodeToLower text w h)
          = (copy ++ legacySynthesis)%list
     else exists rest,
            snd (PasteWithReturn mapUnicodeToLower text w h)
            = (copy ++ EvRun pasteKey :: rest)%list).
Proof.
  split; [reflexivity|].
  assert (Hiff : forall v, isX11_value mapUnicodeToLower v = true
                           <-> v = "x11" \/ v = "X11")
    by (intros v; now apply isX11_value_iff).
  split; [|split; [exact Hiff|split]].
  - intros v. rewrite Hiff. symmetry. apply mapBytes_lower_x11.
  - repeat split; reflexivity.
  - intros text copy Hcopy.
    destruct (isX11_value mapUnicodeToLower (Getenv w "XDG_SESSION_TYPE"))
      eqn:Hx.
    + now rewrite (PasteWithReturn_legacy mapUnicodeToLower text w h copy Hcopy Hx).
    + rewrite (PasteWithReturn_shim mapUnicodeToLower text w h copy Hcopy Hx).
      destruct (cmdRun w (h ++ copy)%list pasteKey).
      * now exists [].
      * destruct (cmdRun w _ returnKey); eexists; reflexivity.
Qed.

Lemma noUnicode_tables :
  forall s, isASCII s = false -> Samples.noUnicode s <> "x11".
Proof.
  intros s Ha Hs. unfold Samples.noUnicode in Hs. subst s. discriminate Ha.
Defined.

Lemma isX11_classification_witness :
  isX11 Samples.noUnicode
    (Samples.desktop "linux" "X11" LevelInfo "main.go - VSCodium"
       true Samples.runsFine Samples.writesAll) [] = (Returned true, []).
Proof.
  exact (proj1 (@isX11_classification Samples.noUnicode noUnicode_tables
                  (Samples.desktop "linux" "X11" LevelInfo "main.go - VSCodium"
                     true Samples.runsFine Samples.writesAll) [])).
Defined.

(** ** The action *)

Lemma GetFocusedWindow_no_injection w h :
  existsb isInjectionCall (snd (GetFocusedWindow w h)) = false.
Proof.
  unfold GetFocusedWindow, bind, cmd_Output, call, ret.
  destruct (cmdOutput w h _) as [windowID [e1|]]; simpl; [reflexivity|].
  destruct (cmdOutput w _ _) as [title [e2|]]; reflexivity.
Qed.

Lemma debugLine_no_injection w message :
  existsb isInjectionCall (debugLine w message) = false.
Proof. unfold debugLine. now destruct (currentLevel w <=? LevelDebug)%Z. Qed.

(** [Execute] up to the title check, when the window query succeeds. *)
Lemma Execute_after_query f transcription w h win queries :
  GetFocusedWindow w (h ++ executeOpening w transcription)%list
    = (Returned (Some win, None), queries) ->
  let before :=
    (executeOpening w transcription ++ queries
     ++ executeTitleLine w (Title win))%list in
  Execute f transcription w h =
    if titleMatches (Title win) then
      match PasteWithReturn f transcription w (h ++ before)%list with
      | (Returned _, paste) => (Returned None, (before ++ paste)%list)
      | (Panicked, paste) => (Panicked, (before ++ paste)%list)
      end
    else
      (Returned None,
       (before ++ debugLine w "VSCode is not open, skipping action")%list).
Proof.
  intros Hq before. subst before.
  unfold Execute, bind. rewrite Logger_Debugf_run.
  fold (executeOpening w transcription). rewrite Hq.
  rewrite Logger_Debugf_run. fold (executeTitleLine w (Title win)).
  rewrite <- !app_assoc.
  destruct (titleMatches (Title win)); simpl.
  - destruct (PasteWithReturn f transcription w _) as [[r|] paste]; simpl;
      now rewrite ?app_nil_r, <- ?app_assoc.
  - rewrite Logger_Debug_run. simpl.
    now rewrite ?app_nil_r, <- ?app_assoc.
Qed.



(** Once the title matches, what [PasteWithReturn] returns is dropped:
    [Execute] returns nil. *)
Lemma Execute_drops_paste_result f transcription w h win queries r paste :
  GetFocusedWindow w (h ++ executeOpening w transcription)%list
    = (Returned (Some win, None), queries) ->
  titleMatches (Title win) = true ->
  let before :=
    (executeOpening w transcription ++ queries
     ++ executeTitleLine w (Title win))%list in
  PasteWithReturn f transcription w (h ++ before)%list = (Returned r, paste) ->
  Execute f transcription w h = (Returned None, (before ++ paste)%list).
Proof.
  intros Hq Hm before Hp. subst before.
  rewrite (Execute_after_query f transcription w h win queries Hq), Hm.
  now rewrite Hp.
Qed.

(** C1, at the failing input: the editor is focused and [xclip] is not
    installed. [PasteWithReturn "hello"] returns the error "xclip is not
    installed"; [Execute "hello"] returns nil all the same, and nothing was
    put on the clipboard and no key was synthesized. An error of the window
    query, in the same function, is returned to the caller. *)
Theorem Execute_swallows_injection_failure :
  GetFocusedWindow SwallowedFailure.noXclip [] =
    (Returned (Some (mkWindow "main.go - VSCodium"), None),
     SwallowedFailure.queries) /\
  titleMatches "main.go - VSCodium" = true /\
  PasteWithReturn Samples.noUnicode "hello" SwallowedFailure.noXclip
      SwallowedFailure.queries =
    (Returned (Some (errorString "xclip is not installed")),
     [EvLookPath "xclip"]) /\
  Execute Samples.noUnicode "hello" SwallowedFailure.noXclip [] =
    (Returned None, (SwallowedFailure.queries ++ [EvLookPath "xclip"])%list) /\
  existsb isClipboardRun
    (snd (Execute Samples.noUnicode "hello" SwallowedFailure.noXclip [])) = false /\
  existsb isPipeWork
    (snd (Execute Samples.noUnicode "hello" SwallowedFailure.noXclip [])) = false /\
  existsb isKeySynthesis
    (snd (Execute Samples.noUnicode "hello" SwallowedFailure.noXclip [])) = false /\
  Execute Samples.noUnicode "hello" Samples.noWindow [] =
    (Returned (Some (OSError "exit status 1")),
     [EvOutput activeWindowQuery;
      EvLog "ERROR" "Error getting focused window: exit status 1"]).
Proof. repeat split. Qed.

(** The same with a failing paste key on the compatibility path. *)
Example Execute_swallows_paste_key_failure :
  PasteWithReturn Samples.noUnicode "hello" SwallowedFailure.pasteFails
      SwallowedFailure.queries =
    (Returned (Some (errorString "failed to paste: exit status 1")),
     (xclipSetup "hello" ++ [EvRun xclipCmd; EvRun pasteKey])%list) /\
  fst (Execute Samples.noUnicode "hello" SwallowedFailure.pasteFails [])
    = Returned None.
Proof. split; reflexivity. Qed.


(** ** The logger's levels *)

Lemma Logger_Info_run message w h :
  Logger_Info message w h =
    (Returned tt,
     if (currentLevel w <=? LevelInfo)%Z then [EvLog "INFO" message] else []).
Proof.
  unfold Logger_Info, bind, ask, writeLog, emit, call, ret.
  now destruct (currentLevel w <=? LevelInfo)%Z.
Qed.

Lemma Logger_Warn_run message w h :
  Logger_Warn message w h =
    (Returned tt,
     if (currentLevel w <=? LevelWarn)%Z then [EvLog "WARN" message] else []).
Proof.
  unfold Logger_Warn, bind, ask, writeLog, emit, call, ret.
  now destruct (currentLevel w <=? LevelWarn)%Z.
Qed.

Lemma Logger_Error_run message err w h :
  Logger_Error message err w h =
    (Returned tt,
     errorLine w match err with
                 | Some e => message ++ ": " ++ Error e
                 | None => message
                 end).
Proof.
  unfold Logger_Error, errorLine, bind, ask, writeLog, emit, call, ret.
  now destruct (currentLevel w <=? LevelError)%Z.
Qed.

(** X1. After [SetLogLevel level], whatever the level was before, a call
    of [Debug], [Info], [Warn] or [Error] writes one line, tagged with its
    own level, exactly when [level] is at most the level of the call, and
    nothing otherwise. The line of [Error] is the message alone for a nil
    error and the message, ": " and the error's text otherwise. The levels
    are nested: a logger on which a lower level writes also writes the
    higher ones, so only a level above [LevelError] silences [Error], and it
    silences the other three with it. *)
Theorem SetLogLevel_threshold
    (level before : LogLevel) (w : World) (h : Trace)
    (message : string) (err : option error) :
  let w' := SetLogLevel level (SetLogLevel before w) in
  let errorText :=
    match err with
    | Some e => message ++ ": " ++ Error e
    | None => message
    end in
  (if (level <=? LevelDebug)%Z
   then writesLine (Logger_Debug message) w' h "DEBUG" message
   else silent (Logger_Debug message) w' h) /\
  (if (level <=? LevelInfo)%Z
   then writesLine (Logger_Info message) w' h "INFO" message
   else silent (Logger_Info message) w' h) /\
  (if (level <=? LevelWarn)%Z
   then writesLine (Logger_Warn message) w' h "WARN" message
   else silent (Logger_Warn message) w' h) /\
  (if (level <=? LevelError)%Z
   then writesLine (Logger_Error message err) w' h "ERROR" errorText
   else silent (Logger_Error message err) w' h) /\
  (~ silent (Logger_Debug message) w' h ->
   ~ silent (Logger_Info message) w' h) /\
  (~ silent (Logger_Info message) w' h ->
   ~ silent (Logger_Warn message) w' h) /\
  (~ silent (Logger_Warn message) w' h ->
   ~ silent (Logger_Error message err) w' h) /\
  (silent (Logger_Error message err) w' h ->
   silent (Logger_Debug message) w' h /\
   silent (Logger_Info message) w' h /\
   silent (Logger_Warn message) w' h /\
   (LevelError < level)%Z).
Proof.
  intros w' errorText. unfold silent, writesLine.
  rewrite Logger_Debug_run, Logger_Info_run, Logger_Warn_run, Logger_Error_run.
  fold errorText.
  unfold debugLine, errorLine, w', SetLogLevel, LevelDebug, LevelInfo,
    LevelWarn, LevelError. simpl.
  destruct (Z.leb_spec level 0); destruct (Z.leb_spec level 1);
    destruct (Z.leb_spec level 2); destruct (Z.leb_spec level 3);
    try lia; repeat split;
    try (intros HA HB; try discriminate HB; now elim HA);
    try (intros HA; discriminate HA);
    try (intros _; repeat split; lia);
    congruence.
Qed.

(** ** White space at the ends of a title *)

Lemma dropBytes_length (n : nat) (s : string) :
  String.length (dropBytes n s) = String.length s - n.
Proof.
  revert s; induction n as [|n IH]; intros s; simpl.
  - now rewrite Nat.sub_0_r.
  - destruct s as [|c s]; simpl; [reflexivity | apply IH].
Qed.

Lemma leadingSpace_nonempty (s : string) :
  leadingSpace s <> 0 -> String.length s <> 0.
Proof. destruct s; simpl; [congruence | discriminate]. Qed.

Lemma trimLeft_no_leading (fuel : nat) (s : string) :
  String.length s <= fuel -> leadingSpace (trimLeft fuel s) = 0.
Proof.
  revert s; induction fuel as [|fuel IH]; intros s Hlen; cbn [trimLeft].
  - destruct s; [reflexivity | simpl in Hlen; lia].
  - destruct (leadingSpace s) as [|k] eqn:Hk; [exact Hk|].
    apply IH. rewrite dropBytes_length.
    assert (String.length s <> 0)
      by (apply leadingSpace_nonempty; congruence).
    lia.
Qed.

Lemma trailingSpace_nonempty (r : list ascii) :
  trailingSpace r <> 0 -> length r <> 0.
Proof. destruct r; simpl; [congruence | discriminate]. Qed.

Lemma trimRightRev_no_trailing (fuel : nat) (r : list ascii) :
  length r <= fuel -> trailingSpace (trimRightRev fuel r) = 0.
Proof.
  revert r; induction fuel as [|fuel IH]; intros r Hlen; cbn [trimRightRev].
  - destruct r; [reflexivity | simpl in Hlen; lia].
  - destruct (trailingSpace r) as [|k] eqn:Hk; [exact Hk|].
    apply IH. rewrite length_skipn.
    assert (length r <> 0) by (apply trailingSpace_nonempty; congruence).
    lia.
Qed.

(** Trimming on the right keeps a prefix of the bytes. *)
Lemma trimRightRev_skipn (fuel : nat) (r : list ascii) :
  exists k, trimRightRev fuel r = skipn k r.
Proof.
  revert r; induction fuel as [|fuel IH]; intros r; cbn [trimRightRev].
  - now exists 0.
  - destruct (trailingSpace r) as [|k] eqn:Hk; [now exists 0|].
    destruct (IH (skipn (S k) r)) as [j Hj].
    exists (S k + j). rewrite Hj, skipn_skipn. f_equal. lia.
Qed.

(** A string that starts with white space keeps starting with it when
    bytes are added at its end. *)
Lemma leadingSpace_prefix (p q : list ascii) :
  leadingSpace (string_of_list_ascii (p ++ q)) = 0 ->
  leadingSpace (string_of_list_ascii p) = 0.
Proof.
  destruct p as [|a [|b [|c p]]]; [reflexivity| | |exact (fun H => H)].
  - destruct q as [|x [|y q]]; simpl;
      destruct (isSpace1 (byteval a)); try congruence;
      destruct (isSpace2 (byteval a) (byteval x)); try congruence;
      destruct (isSpace3 (byteval a) (byteval x) (byteval y)); congruence.
  - destruct q as [|x q]; simpl;
      destruct (isSpace1 (byteval a)); try congruence;
      destruct (isSpace2 (byteval a) (byteval b)); try congruence;
      destruct (isSpace3 (byteval a) (byteval b) (byteval x)); congruence.
Qed.

Lemma TrimSpace_trimmed (s : string) : trimmed (TrimSpace s).
Proof.
  unfold trimmed, TrimSpace.
  set (l := trimLeft (String.length s) s).
  set (r := rev (list_ascii_of_string l)).
  assert (Hl : leadingSpace l = 0) by (apply trimLeft_no_leading; lia).
  assert (Hr : length r = String.length l).
  { unfold r. rewrite length_rev. clear.
    induction l; simpl; congruence. }
  split.
  - destruct (trimRightRev_skipn (String.length l) r) as [k Hk].
    rewrite Hk. unfold r. rewrite skipn_rev, rev_involutive.
    apply leadingSpace_prefix
      with (q := skipn (length (list_ascii_of_string l) - k)
                       (list_ascii_of_string l)).
    now rewrite firstn_skipn, string_of_list_ascii_of_string.
  - rewrite list_ascii_of_string_of_list_ascii, rev_involutive.
    apply trimRightRev_no_trailing. lia.
Qed.

Lemma trimLeft_fixed (fuel : nat) (s : string) :
  leadingSpace s = 0 -> trimLeft fuel s = s.
Proof. intros H. destruct fuel; [reflexivity | cbn; now rewrite H]. Qed.

Lemma trimRightRev_fixed (fuel : nat) (r : list ascii) :
  trailingSpace r = 0 -> trimRightRev fuel r = r.
Proof. intros H. destruct fuel; [reflexivity | cbn; now rewrite H]. Qed.

Lemma TrimSpace_fixed (s : string) : trimmed s -> TrimSpace s = s.
Proof.
  intros [Hl Hr]. unfold TrimSpace.
  rewrite (trimLeft_fixed _ s Hl), (trimRightRev_fixed _ _ Hr).
  now rewrite rev_involutive, string_of_list_ascii_of_string.
Qed.

(** ** The window inspector, every case *)

Lemma GetFocusedWindow_query_failure_helper w h cause events :
  QueryFails w h cause events ->
  GetFocusedWindow w h = (Returned (None, Some cause), events).
Proof.
  intros Hq.
  unfold GetFocusedWindow, bind, cmd_Output, call, ret.
  fold activeWindowQuery.
  destruct Hq as [out H1 | windowID out H1 H2].
  - now rewrite H1.
  - rewrite H1. simpl. fold (windowNameQuery windowID). now rewrite H2.
Qed.

Lemma GetFocusedWindow_success_inv w h win err events :
  GetFocusedWindow w h = (Returned (Some win, err), events) ->
  exists windowID title,
    QueriesSucceed w h windowID title /\
    win = mkWindow (TrimSpace title) /\ err = None /\
    events = [EvOutput activeWindowQuery; EvOutput (windowNameQuery windowID)].
Proof.
  unfold GetFocusedWindow, bind, cmd_Output, call, ret.
  fold activeWindowQuery.
  destruct (cmdOutput w h activeWindowQuery) as [windowID [e1|]] eqn:H1; simpl;
    [discriminate|].
  fold (windowNameQuery windowID).
  destruct (cmdOutput w (h ++ [EvOutput activeWindowQuery])%list
              (windowNameQuery windowID)) as [title [e2|]] eqn:H2; simpl;
    [discriminate|].
  intros H. injection H as <- <- <-.
  exists windowID, title. repeat split; assumption.
Qed.

(** [GetFocusedWindow] ends in one of two ways. *)
Lemma GetFocusedWindow_cases w h :
  (exists windowID title,
     QueriesSucceed w h windowID title /\
     GetFocusedWindow w h =
       (Returned (Some (mkWindow (TrimSpace title)), None),
        [EvOutput activeWindowQuery; EvOutput (windowNameQuery windowID)])) \/
  (exists cause events,
     QueryFails w h cause events /\
     GetFocusedWindow w h = (Returned (None, Some cause), events)).
Proof.
  destruct (GetFocusedWindow w h) as [[[[win|] [e|]]|] events] eqn:Hg.
  - apply GetFocusedWindow_success_inv in Hg as (? & ? & _ & _ & Habs & _).
    discriminate.
  - left. apply GetFocusedWindow_success_inv in Hg
      as (windowID & title & Hq & -> & _ & ->).
    now exists windowID, title.
  - right. destruct (GetFocusedWindow_error_inv w h None e events Hg) as [Hq _].
    now exists e, events.
  - exfalso. revert Hg.
    unfold GetFocusedWindow, bind, cmd_Output, call, ret.
    destruct (cmdOutput w h _) as [windowID [e1|]]; simpl; [discriminate|].
    destruct (cmdOutput w _ _) as [title [e2|]]; discriminate.
  - exfalso. revert Hg.
    unfold GetFocusedWindow, bind, cmd_Output, call, ret.
    destruct (cmdOutput w h _) as [windowID [e1|]]; simpl; [discriminate|].
    destruct (cmdOutput w _ _) as [title [e2|]]; discriminate.
Qed.

(** X2. [GetFocusedWindow] never panics and returns exactly one of a
    window and an error: a window after the two [xdotool] queries, or the
    error of the query that failed after the queries made up to it. It makes
    no call but these one or two queries. *)
Theorem GetFocusedWindow_window_or_error (w : World) (h : Trace) :
  (exists win windowID,
     GetFocusedWindow w h =
       (Returned (Some win, None),
        [EvOutput activeWindowQuery; EvOutput (windowNameQuery windowID)])) \/
  (exists cause events,
     GetFocusedWindow w h = (Returned (None, Some cause), events) /\
     (events = [EvOutput activeWindowQuery] \/
      exists windowID,
        events = [EvOutput activeWindowQuery;
                  EvOutput (windowNameQuery windowID)])).
Proof.
  destruct (GetFocusedWindow_cases w h)
    as [(windowID & title & _ & Hg) | (cause & events & Hq & Hg)].
  - left. now exists (mkWindow (TrimSpace title)), windowID.
  - right. exists cause, events. split; [exact Hg|].
    destruct Hq; [now left | right; now exists windowID].
Qed.

(** X3. When both queries answer, the title of the window returned is
    the title [xdotool] printed with the white space at both ends removed:
    it starts and ends with no white-space rune, and trimming it again
    changes nothing. The identifier handed to the title query is trimmed the
    same way. *)
Theorem GetFocusedWindow_title_trimmed
    (w : World) (h : Trace) (windowID title : string) :
  QueriesSucceed w h windowID title ->
  exists win events,
    GetFocusedWindow w h = (Returned (Some win, None), events) /\
    Title win = TrimSpace title /\
    trimmed (Title win) /\
    TrimSpace (Title win) = Title win /\
    events = [EvOutput activeWindowQuery;
              EvOutput (exec_Command "xdotool"
                          ["getwindowname"; TrimSpace windowID])] /\
    trimmed (TrimSpace windowID).
Proof.
  intros Hq.
  exists (mkWindow (TrimSpace title)).
  eexists. split; [exact (GetFocusedWindow_success w h windowID title Hq)|].
  cbn [Title].
  split; [reflexivity|]. split; [apply TrimSpace_trimmed|].
  split; [apply TrimSpace_fixed, TrimSpace_trimmed|].
  split; [reflexivity | apply TrimSpace_trimmed].
Qed.

Lemma GetFocusedWindow_title_trimmed_witness :
  exists win events,
    GetFocusedWindow MoreSamples.paddedTitle [] =
      (Returned (Some win, None), events) /\
    Title win = TrimSpace ("  main.go - VSCodium  " ++ Samples.newline) /\
    trimmed (Title win) /\
    TrimSpace (Title win) = Title win /\
    events = [EvOutput activeWindowQuery;
              EvOutput (exec_Command "xdotool"
                          ["getwindowname";
                           TrimSpace (Samples.windowId ++ Samples.newline)])] /\
    trimmed (TrimSpace (Samples.windowId ++ Samples.newline)).
Proof.
  apply (GetFocusedWindow_title_trimmed MoreSamples.paddedTitle []
           (Samples.windowId ++ Samples.newline)
           ("  main.go - VSCodium  " ++ Samples.newline)).
  split; reflexivity.
Defined.

(** ** The clipboard: where an error comes from, when it panics *)

Lemma supportedOS_dec (w : World) : {supportedOS w} + {~ supportedOS w}.
Proof.
  unfold supportedOS.
  destruct (string_dec (GOOS w) "darwin"); [left; now left|].
  destruct (string_dec (GOOS w) "linux"); [left; now right|].
  right. intros [H|H]; contradiction.
Qed.

Lemma CopyToClipboard_supported text w h :
  supportedOS w ->
  exists r events, CopyToClipboard text w h = (Returned r, events).
Proof.
  intros [Hos|Hos].
  - rewrite (CopyToClipboard_darwin text w h Hos). eauto.
  - destruct (lookPath w h "xclip") as [path [e|]] eqn:Hlp.
    + rewrite (CopyToClipboard_linux_missing text w h path e Hos Hlp). eauto.
    + rewrite (CopyToClipboard_linux_present text w h path Hos Hlp). eauto.
Qed.

Lemma CopyToClipboard_unsupported text w h :
  ~ supportedOS w -> CopyToClipboard text w h = (Panicked, []).
Proof.
  intros Hn. apply CopyToClipboard_other_os; intros H; apply Hn;
    [now left | now right].
Qed.

Lemma CopyToClipboard_no_xdotool text w h :
  existsb isXdotoolRun (snd (CopyToClipboard text w h)) = false /\
  existsb isSleep (snd (CopyToClipboard text w h)) = false /\
  ~ In (EvRun returnKey) (snd (CopyToClipboard text w h)).
Proof.
  destruct (CopyToClipboard_cases text w h) as [H|H|H|H]; rewrite H;
    repeat split; simpl; intuition discriminate.
Qed.

(** X4. An error returned by [CopyToClipboard] has one of three origins:
    on macOS it is what running [pbcopy] returned; on Linux it is either the
    fixed error "xclip is not installed", after a failed look-up and nothing
    else, or what running [xclip] returned after the worker was started. The
    error of a run is handed on as it is, not wrapped. *)
Theorem CopyToClipboard_error_sources
    (text : string) (w : World) (h : Trace) (e : error) (events : Trace) :
  CopyToClipboard text w h = (Returned (Some e), events) ->
  (GOOS w = "darwin" /\
   cmdRun w h pbcopyCmd = Some e /\ events = [EvRun pbcopyCmd]) \/
  (GOOS w = "linux" /\
   snd (lookPath w h "xclip") <> None /\
   e = errorString "xclip is not installed" /\
   events = [EvLookPath "xclip"]) \/
  (GOOS w = "linux" /\
   snd (lookPath w h "xclip") = None /\
   cmdRun w (h ++ xclipSetup text)%list xclipCmd = Some e /\
   events = (xclipSetup text ++ [EvRun xclipCmd])%list).
Proof.
  intros Hc.
  destruct (string_dec (GOOS w) "darwin") as [Hd|Hd].
  - left. rewrite (CopyToClipboard_darwin text w h Hd) in Hc.
    injection Hc as H1 H2. now rewrite H1, H2.
  - destruct (string_dec (GOOS w) "linux") as [Hl|Hl].
    + right. destruct (lookPath w h "xclip") as [path [e'|]] eqn:Hlp.
      * left. rewrite (CopyToClipboard_linux_missing text w h path e' Hl Hlp)
          in Hc.
        injection Hc as H1 H2. simpl. repeat split; congruence.
      * right. rewrite (CopyToClipboard_linux_present text w h path Hl Hlp)
          in Hc.
        injection Hc as H1 H2. simpl. repeat split; congruence.
    + rewrite (CopyToClipboard_other_os text w h Hd Hl) in Hc. discriminate.
Qed.

Lemma CopyToClipboard_error_sources_witness :
  (GOOS HelperFailure.helperFailsWorld = "darwin" /\
   cmdRun HelperFailure.helperFailsWorld [] pbcopyCmd
     = Some (OSError "exit status 1") /\
   (xclipSetup "hello" ++ [EvRun xclipCmd])%list = [EvRun pbcopyCmd]) \/
  (GOOS HelperFailure.helperFailsWorld = "linux" /\
   snd (lookPath HelperFailure.helperFailsWorld [] "xclip") <> None /\
   OSError "exit status 1" = errorString "xclip is not installed" /\
   (xclipSetup "hello" ++ [EvRun xclipCmd])%list = [EvLookPath "xclip"]) \/
  (GOOS HelperFailure.helperFailsWorld = "linux" /\
   snd (lookPath HelperFailure.helperFailsWorld [] "xclip") = None /\
   cmdRun HelperFailure.helperFailsWorld ([] ++ xclipSetup "hello")%list
          xclipCmd = Some (OSError "exit status 1") /\
   (xclipSetup "hello" ++ [EvRun xclipCmd])%list
     = (xclipSetup "hello" ++ [EvRun xclipCmd])%list).
Proof.
  apply (CopyToClipboard_error_sources "hello"
           HelperFailure.helperFailsWorld [] (OSError "exit status 1")
           (xclipSetup "hello" ++ [EvRun xclipCmd])%list).
  reflexivity.
Defined.

(** ** Paste and commit, every case *)

Lemma PasteWithReturn_copy_panic f text w h events :
  CopyToClipboard text w h = (Panicked, events) ->
  PasteWithReturn f text w h = (Panicked, events).
Proof.
  intros Hcopy. unfold PasteWithReturn.
  now erewrite bind_panicked by exact Hcopy.
Qed.

Lemma PasteWithReturn_returns f text w h r copy :
  CopyToClipboard text w h = (Returned r, copy) ->
  exists r' events, PasteWithReturn f text w h = (Returned r', events).
Proof.
  intros Hcopy. destruct r as [e|].
  - rewrite (PasteWithReturn_copy_error f text w h e copy Hcopy). eauto.
  - destruct (isX11_value f (Getenv w "XDG_SESSION_TYPE")) eqn:Hx.
    + rewrite (PasteWithReturn_legacy f text w h copy Hcopy Hx). eauto.
    + rewrite (PasteWithReturn_shim f text w h copy Hcopy Hx).
      destruct (cmdRun w (h ++ copy)%list pasteKey); [eauto|].
      destruct (cmdRun w _ returnKey); eauto.
Qed.

Lemma PasteWithReturn_panicked f text w h :
  fst (PasteWithReturn f text w h) = Panicked <-> ~ supportedOS w.
Proof.
  destruct (supportedOS_dec w) as [Hs|Hn].
  - destruct (CopyToClipboard_supported text w h Hs) as (r & copy & Hc).
    destruct (PasteWithReturn_returns f text w h r copy Hc) as (r' & ev & Hp).
    rewrite Hp. simpl. split; [discriminate | contradiction].
  - rewrite (PasteWithReturn_copy_panic f text w h []
               (CopyToClipboard_unsupported text w h Hn)).
    simpl. split; auto.
Qed.

(** X5. On a session classified as X11 [PasteWithReturn] ends exactly as
    [CopyToClipboard] does: with its error, with its panic, or with nil, and
    only then after the two key taps. The taps cannot make the call fail, and
    [xdotool] is not run. *)
Theorem PasteWithReturn_x11_follows_copy
    (mapUnicodeToLower : string -> string)
    (text : string) (w : World) (h : Trace) :
  isX11_value mapUnicodeToLower (Getenv w "XDG_SESSION_TYPE") = true ->
  fst (PasteWithReturn mapUnicodeToLower text w h)
    = fst (CopyToClipboard text w h) /\
  snd (PasteWithReturn mapUnicodeToLower text w h)
    = (snd (CopyToClipboard text w h)
       ++ match fst (CopyToClipboard text w h) with
          | Returned None => [EvKeyTap "v" ["ctrl"]; EvKeyTap "enter" []]
          | _ => []
          end)%list /\
  existsb isXdotoolRun (snd (PasteWithReturn mapUnicodeToLower text w h))
    = false.
Proof.
  intros Hx.
  destruct (CopyToClipboard_no_xdotool text w h) as [Hno _].
  destruct (CopyToClipboard text w h) as [[[e|]|] copy] eqn:Hc; simpl in *.
  - rewrite (PasteWithReturn_copy_error mapUnicodeToLower text w h e copy Hc).
    simpl. now rewrite app_nil_r.
  - rewrite (PasteWithReturn_legacy mapUnicodeToLower text w h copy Hc Hx).
    simpl. repeat split. rewrite existsb_app, Hno. reflexivity.
  - rewrite (PasteWithReturn_copy_panic mapUnicodeToLower text w h copy Hc).
    simpl. now rewrite app_nil_r.
Qed.

Lemma PasteWithReturn_x11_witness :
  let w := Samples.desktop "linux" "X11" LevelInfo "main.go - VSCodium"
             true HelperFailure.helperExits1 Samples.writesAll in
  fst (PasteWithReturn Samples.noUnicode "hello" w [])
    = Returned (Some (OSError "exit status 1")) /\
  snd (PasteWithReturn Samples.noUnicode "hello" w [])
    = ((xclipSetup "hello" ++ [EvRun xclipCmd]) ++ [])%list /\
  existsb isXdotoolRun (snd (PasteWithReturn Samples.noUnicode "hello" w []))
    = false.
Proof.
  intros w.
  apply (PasteWithReturn_x11_follows_copy Samples.noUnicode "hello" w []).
  reflexivity.
Defined.

(** X6. On the compatibility path, when running [xdotool key ctrl+v]
    fails after a successful copy, [PasteWithReturn] returns a new error
    whose text is "failed to paste: " followed by the text of the cause, and
    stops: it does not sleep and does not press Return. The clipboard keeps
    the text. *)
Theorem PasteWithReturn_paste_key_failure
    (mapUnicodeToLower : string -> string)
    (text : string) (w : World) (h copy : Trace) (cause : error) :
  CopyToClipboard text w h = (Returned None, copy) ->
  isX11_value mapUnicodeToLower (Getenv w "XDG_SESSION_TYPE") = false ->
  cmdRun w (h ++ copy)%list pasteKey = Some cause ->
  PasteWithReturn mapUnicodeToLower text w h =
    (Returned (Some (errorString ("failed to paste: " ++ Error cause))),
     (copy ++ [EvRun pasteKey])%list) /\
  existsb isSleep (snd (PasteWithReturn mapUnicodeToLower text w h)) = false /\
  ~ In (EvRun returnKey) (snd (PasteWithReturn mapUnicodeToLower text w h)).
Proof.
  intros Hc Hx Hrun.
  destruct (CopyToClipboard_no_xdotool text w h) as (_ & Hs & Hr).
  rewrite Hc in Hs, Hr. simpl in Hs, Hr.
  rewrite (PasteWithReturn_shim mapUnicodeToLower text w h copy Hc Hx), Hrun.
  split; [reflexivity|]. simpl. split.
  - rewrite existsb_app, Hs. reflexivity.
  - intros Hin. apply in_app_or in Hin as [Hin|Hin]; [now apply Hr|].
    simpl in Hin. destruct Hin as [Hin|[]]. discriminate Hin.
Qed.

Lemma PasteWithReturn_paste_key_failure_witness :
  PasteWithReturn Samples.noUnicode "hello" SwallowedFailure.pasteFails [] =
    (Returned (Some (errorString
                       ("failed to paste: " ++ Error (OSError "exit status 1")))),
     ((xclipSetup "hello" ++ [EvRun xclipCmd]) ++ [EvRun pasteKey])%list) /\
  existsb isSleep
    (snd (PasteWithReturn Samples.noUnicode "hello"
            SwallowedFailure.pasteFails [])) = false /\
  ~ In (EvRun returnKey)
       (snd (PasteWithReturn Samples.noUnicode "hello"
               SwallowedFailure.pasteFails [])).
Proof.
  apply (PasteWithReturn_paste_key_failure Samples.noUnicode "hello"
           SwallowedFailure.pasteFails []
           (xclipSetup "hello" ++ [EvRun xclipCmd])%list
           (OSError "exit status 1")); reflexivity.
Defined.

(** X7. On the compatibility path, when the paste key went through and
    running [xdotool key Return] fails, [PasteWithReturn] returns a new error
    whose text is "failed to press enter: " followed by the text of the
    cause; the paste key and the 50 millisecond sleep have happened by then,
    so the text is pasted but not committed. *)
Theorem PasteWithReturn_return_key_failure
    (mapUnicodeToLower : string -> string)
    (text : string) (w : World) (h copy : Trace) (cause : error) :
  CopyToClipboard text w h = (Returned None, copy) ->
  isX11_value mapUnicodeToLower (Getenv w "XDG_SESSION_TYPE") = false ->
  cmdRun w (h ++ copy)%list pasteKey = None ->
  cmdRun w (h ++ copy ++ [EvRun pasteKey; EvSleep (50 * Millisecond)])%list
         returnKey = Some cause ->
  PasteWithReturn mapUnicodeToLower text w h =
    (Returned (Some (errorString ("failed to press enter: " ++ Error cause))),
     (copy ++ [EvRun pasteKey; EvSleep (50 * Millisecond); EvRun returnKey])%list).
Proof.
  intros Hc Hx Hpaste Hret.
  rewrite (PasteWithReturn_shim mapUnicodeToLower text w h copy Hc Hx).
  now rewrite Hpaste, Hret.
Qed.

Lemma PasteWithReturn_return_key_failure_witness :
  PasteWithReturn Samples.noUnicode "hello" MoreSamples.enterFails [] =
    (Returned (Some (errorString
       ("failed to press enter: " ++ Error (OSError "exit status 1")))),
     ((xclipSetup "hello" ++ [EvRun xclipCmd])
      ++ [EvRun pasteKey; EvSleep (50 * Millisecond); EvRun returnKey])%list).
Proof.
  apply (PasteWithReturn_return_key_failure Samples.noUnicode "hello"
           MoreSamples.enterFails []
           (xclipSetup "hello" ++ [EvRun xclipCmd])%list
           (OSError "exit status 1")); reflexivity.
Defined.

(** X8. [PasteWithReturn] panics exactly when the operating system is
    neither "darwin" nor "linux", whatever the text and the session type, and
    so does [CopyToClipboard]; the panic comes before any call is made. On
    the two supported systems both always return. *)
Theorem PasteWithReturn_panics_iff_unsupported
    (mapUnicodeToLower : string -> string)
    (text : string) (w : World) (h : Trace) :
  (fst (PasteWithReturn mapUnicodeToLower text w h) = Panicked
   <-> ~ supportedOS w) /\
  (fst (CopyToClipboard text w h) = Panicked <-> ~ supportedOS w) /\
  (fst (PasteWithReturn mapUnicodeToLower text w h) = Panicked ->
   snd (PasteWithReturn mapUnicodeToLower text w h) = []).
Proof.
  split; [apply PasteWithReturn_panicked|]. split.
  - destruct (supportedOS_dec w) as [Hs|Hn].
    + destruct (CopyToClipboard_supported text w h Hs) as (r & copy & Hc).
      rewrite Hc. simpl. split; [discriminate | contradiction].
    + rewrite (CopyToClipboard_unsupported text w h Hn). simpl. split; auto.
  - intros Hp. apply PasteWithReturn_panicked in Hp.
    now rewrite (PasteWithReturn_copy_panic mapUnicodeToLower text w h []
                   (CopyToClipboard_unsupported text w h Hp)).
Qed.

(** ** The action, every case *)

Lemma Execute_on_query_error f transcription w h win cause queries :
  GetFocusedWindow w (h ++ executeOpening w transcription)%list
    = (Returned (win, Some cause), queries) ->
  Execute f transcription w h =
    (Returned (Some cause),
     (executeOpening w transcription ++ queries
      ++ errorLine w ("Error getting focused window: " ++ Error cause))%list).
Proof.
  intros Hq.
  unfold Execute, bind. rewrite Logger_Debugf_run.
  fold (executeOpening w transcription). rewrite Hq.
  destruct win; rewrite Logger_Error_run; unfold ret; simpl;
    now rewrite ?app_nil_r.
Qed.

Lemma errorLine_no_injection w message :
  existsb isInjectionCall (errorLine w message) = false.
Proof. unfold errorLine. now destruct (currentLevel w <=? LevelError)%Z. Qed.

(** The outcome of [Execute] once both window queries have answered. *)
Lemma Execute_on_window f transcription w h windowID title :
  QueriesSucceed w (h ++ executeOpening w transcription)%list windowID title ->
  fst (Execute f transcription w h) =
    if titleMatches (TrimSpace title) then
      if supportedOS_dec w then Returned None else Panicked
    else Returned None.
Proof.
  intros Hq.
  rewrite (Execute_after_query f transcription w h
             (mkWindow (TrimSpace title)) _
             (GetFocusedWindow_success w _ windowID title Hq)).
  cbn [Title].
  destruct (titleMatches (TrimSpace title)); [|reflexivity].
  match goal with
  | |- context [PasteWithReturn f transcription w ?h'] =>
      pose proof (PasteWithReturn_panicked f transcription w h') as Hp;
      destruct (PasteWithReturn f transcription w h') as [[r|] paste]
  end; simpl in *.
  - destruct (supportedOS_dec w) as [Hs|Hn]; [reflexivity|].
    apply Hp in Hn. discriminate.
  - destruct (supportedOS_dec w) as [Hs|Hn]; [|reflexivity].
    now elim (proj1 Hp eq_refl).
Qed.

(** X9. When a window query fails, [Execute] returns the query's error
    to its caller and injects nothing: after the queries made so far its only
    call is the ERROR log line "Error getting focused window: " followed by
    the error's text, which is written unless the log level is above
    [LevelError]; the error is returned either way. *)
Theorem Execute_query_failure
    (mapUnicodeToLower : string -> string)
    (transcription : string) (w : World) (h : Trace)
    (cause : error) (queries : Trace) :
  QueryFails w (h ++ executeOpening w transcription)%list cause queries ->
  Execute mapUnicodeToLower transcription w h =
    (Returned (Some cause),
     (executeOpening w transcription ++ queries
      ++ if (currentLevel w <=? LevelError)%Z
         then [EvLog "ERROR"
                 ("Error getting focused window: " ++ Error cause)]
         else [])%list) /\
  existsb isInjectionCall
    (snd (Execute mapUnicodeToLower transcription w h)) = false.
Proof.
  intros Hq.
  pose proof (GetFocusedWindow_query_failure_helper w
                (h ++ executeOpening w transcription)%list cause queries Hq)
    as Hg.
  pose proof (Execute_on_query_error mapUnicodeToLower transcription w h
                None cause queries Hg) as He.
  split; [exact He|].
  rewrite He. simpl snd.
  pose proof (GetFocusedWindow_no_injection w
                (h ++ executeOpening w transcription)%list) as Hn.
  rewrite Hg in Hn. simpl in Hn.
  rewrite !existsb_app. unfold executeOpening.
  now rewrite Hn, debugLine_no_injection, errorLine_no_injection.
Qed.

Lemma Execute_query_failure_witness :
  Execute Samples.noUnicode "hello" MoreSamples.titleQueryFails [] =
    (Returned (Some (OSError "exit status 1")),
     [EvOutput activeWindowQuery; EvOutput (windowNameQuery "4194311");
      EvLog "ERROR" "Error getting focused window: exit status 1"]) /\
  existsb isInjectionCall
    (snd (Execute Samples.noUnicode "hello" MoreSamples.titleQueryFails []))
    = false.
Proof.
  apply (Execute_query_failure Samples.noUnicode "hello"
           MoreSamples.titleQueryFails [] (OSError "exit status 1")
           [EvOutput activeWindowQuery; EvOutput (windowNameQuery "4194311")]).
  apply WindowNameFails with (out := ""); reflexivity.
Defined.

(** X10. [Execute] returns an error if and only if one of the two
    window queries failed, and the error is then that query's. Nothing that
    happens after the title check (a missing [xclip], a failing clipboard
    tool, a failing key synthesis) can make it return an error. *)
Theorem Execute_error_iff_query_fails
    (mapUnicodeToLower : string -> string)
    (transcription : string) (w : World) (h : Trace) (e : error) :
  fst (Execute mapUnicodeToLower transcription w h) = Returned (Some e)
  <-> exists queries,
        QueryFails w (h ++ executeOpening w transcription)%list e queries.
Proof.
  split.
  - intros He.
    destruct (GetFocusedWindow_cases w
                (h ++ executeOpening w transcription)%list)
      as [(windowID & title & Hq & _) | (cause & queries & Hq & Hg)].
    + rewrite (Execute_on_window mapUnicodeToLower transcription w h
                 windowID title Hq) in He.
      destruct (titleMatches (TrimSpace title)); [|discriminate].
      destruct (supportedOS_dec w); discriminate.
    + rewrite (Execute_on_query_error mapUnicodeToLower transcription w h
                 None cause queries Hg) in He.
      simpl in He. injection He as <-. now exists queries.
  - intros [queries Hq].
    now rewrite (Execute_on_query_error mapUnicodeToLower transcription w h
                   None e queries
                   (GetFocusedWindow_query_failure_helper w _ e queries Hq)).
Qed.

(** X11. [Execute] panics if and only if both window queries answer,
    the trimmed title contains "VSC", and the operating system is neither
    "darwin" nor "linux": on such a system the plugin is harmless until an
    editor window is focused. *)
Theorem Execute_panics_iff
    (mapUnicodeToLower : string -> string)
    (transcription : string) (w : World) (h : Trace) :
  fst (Execute mapUnicodeToLower transcription w h) = Panicked
  <-> (~ supportedOS w /\
       exists windowID title,
         QueriesSucceed w (h ++ executeOpening w transcription)%list
                        windowID title /\
         titleMatches (TrimSpace title) = true).
Proof.
  split.
  - intros He.
    destruct (GetFocusedWindow_cases w
                (h ++ executeOpening w transcription)%list)
      as [(windowID & title & Hq & _) | (cause & queries & Hq & Hg)].
    + rewrite (Execute_on_window mapUnicodeToLower transcription w h
                 windowID title Hq) in He.
      destruct (titleMatches (TrimSpace title)) eqn:Hm; [|discriminate].
      destruct (supportedOS_dec w) as [Hs|Hn]; [discriminate|].
      split; [exact Hn|]. now exists windowID, title.
    + rewrite (Execute_on_query_error mapUnicodeToLower transcription w h
                 None cause queries Hg) in He.
      discriminate.
  - intros (Hn & windowID & title & Hq & Hm).
    rewrite (Execute_on_window mapUnicodeToLower transcription w h
               windowID title Hq), Hm.
    now destruct (supportedOS_dec w).
Qed.

(** The panic on a sample desktop. *)
Example Execute_panics_sample :
  Execute Samples.noUnicode "hello" MoreSamples.otherOS [] =
    (Panicked, SwallowedFailure.queries).
Proof. reflexivity. Qed.

(** X12. On Linux, with the editor focused, [xclip] found and its run
    succeeding, the clipboard calls of [Execute] are exactly three: the
    look-up of [xclip], the fork of one worker whose only write is handed
    the transcription passed to [Execute], byte for byte, before it closes
    the pipe, and one run of [xclip] with the read end of that pipe as its
    standard input. This holds for every session type and whether or not the
    key synthesis then succeeds, and [Execute] returns nil. *)
Theorem Execute_delivers_transcription
    (mapUnicodeToLower : string -> string)
    (transcription : string) (w : World) (h : Trace)
    (windowID title path : string) :
  GOOS w = "linux" ->
  QueriesSucceed w (h ++ executeOpening w transcription)%list windowID title ->
  titleMatches (TrimSpace title) = true ->
  let before :=
    (h ++ executeOpening w transcription
       ++ [EvOutput activeWindowQuery; EvOutput (windowNameQuery windowID)]
       ++ executeTitleLine w (TrimSpace title))%list in
  lookPath w before "xclip" = (path, None) ->
  cmdRun w (before ++ xclipSetup transcription)%list xclipCmd = None ->
  filter isClipboardCall (snd (Execute mapUnicodeToLower transcription w h))
    = [EvLookPath "xclip";
       EvGo [EvPipeWrite transcription; EvPipeClose];
       EvRun (mkCmd "xclip" ["xclip"; "-selection"; "clipboard"]
                    StdinPipeReader)] /\
  fst (Execute mapUnicodeToLower transcription w h) = Returned None.
Proof.
  intros Hos Hq Hm before Hlp Hrun.
  rewrite (Execute_after_query mapUnicodeToLower transcription w h
             (mkWindow (TrimSpace title)) _
             (GetFocusedWindow_success w _ windowID title Hq)).
  cbn [Title]. rewrite Hm.
  assert (Hb : before = (h ++ (executeOpening w transcription
       ++ [EvOutput activeWindowQuery; EvOutput (windowNameQuery windowID)]
       ++ executeTitleLine w (TrimSpace title)))%list)
    by (unfold before; now rewrite <- ?app_assoc).
  rewrite Hb in Hlp, Hrun.
  pose proof (CopyToClipboard_linux_present transcription w _ path Hos Hlp)
    as Hc.
  rewrite Hrun in Hc.
  set (pre := (executeOpening w transcription
       ++ [EvOutput activeWindowQuery; EvOutput (windowNameQuery windowID)]
       ++ executeTitleLine w (TrimSpace title))%list) in *.
  assert (Hshape : exists r tail,
            PasteWithReturn mapUnicodeToLower transcription w (h ++ pre)%list
              = (Returned r,
                 (xclipSetup transcription ++ [EvRun xclipCmd] ++ tail)%list)
            /\ (tail = legacySynthesis \/ tail = [EvRun pasteKey]
                \/ tail = shimSynthesis)).
  { destruct (isX11_value mapUnicodeToLower (Getenv w "XDG_SESSION_TYPE"))
      eqn:Hx.
    - rewrite (PasteWithReturn_legacy mapUnicodeToLower transcription w _ _
                 Hc Hx).
      exists None, legacySynthesis. split; [reflexivity | auto].
    - rewrite (PasteWithReturn_shim mapUnicodeToLower transcription w _ _
                 Hc Hx).
      destruct (cmdRun w _ pasteKey).
      + eexists _, [EvRun pasteKey]. split; [reflexivity | auto].
      + destruct (cmdRun w _ returnKey); eexists _, shimSynthesis;
          (split; [reflexivity | auto]). }
  destruct Hshape as (r & tail & Hp & Htail). rewrite Hp.
  split; [|reflexivity].
  unfold pre, executeOpening, executeTitleLine, debugLine. simpl snd.
  destruct (currentLevel w <=? LevelDebug)%Z;
    destruct Htail as [->|[->| ->]]; reflexivity.
Qed.

Lemma Execute_delivers_transcription_witness :
  let w := Samples.desktop "linux" "wayland" LevelDebug "main.go - VSCodium"
             true Samples.runsFine Samples.writesAll in
  filter isClipboardCall
    (snd (Execute Samples.noUnicode "fmt.Println(42)" w []))
    = [EvLookPath "xclip";
       EvGo [EvPipeWrite "fmt.Println(42)"; EvPipeClose];
       EvRun (mkCmd "xclip" ["xclip"; "-selection"; "clipboard"]
                    StdinPipeReader)] /\
  fst (Execute Samples.noUnicode "fmt.Println(42)" w []) = Returned None.
Proof.
  intros w.
  apply (Execute_delivers_transcription Samples.noUnicode "fmt.Println(42)"
           w [] (Samples.windowId ++ Samples.newline)
           ("main.go - VSCodium" ++ Samples.newline) "/usr/bin/xclip");
    try reflexivity.
  split; reflexivity.
Defined.
